(** * azurepdf2png: the PDF-to-PNG conversion pipeline of [main.py]

    A shallow embedding of the four coroutines of [main.py]
    ([download_pdf], [convert_pdf_to_images], [upload_image_to_azure_blob]
    and the endpoint [convert_pdf]) into a state-and-exception monad, and
    the properties of the pipeline proved over it.

    The libraries the program calls (aiohttp, PyMuPDF, the Azure SDK) are
    black boxes: their answers are fields of a record [Env], and every
    theorem quantifies over it.  Python exceptions are values of [exn];
    [try]/[except] is [try_except].  Logging and [log_resource_usage] do not
    influence any result and are left out. *)

From Stdlib Require Import ZArith Lia List String Ascii.
From Stdlib Require Import DecimalString DecimalNat DecimalZ.
From Stdlib.Strings Require Import Byte.
From stdpp Require Import gmap strings list.

Local Open Scope Z_scope.

(** ** Python values *)

(** [bytes] objects. *)
Abbreviation bytes := (list byte).

(** [len(b)] of a [bytes] object, a Python [int]. *)
Definition len (b : bytes) : Z := Z.of_nat (length b).

(** [str(n)] of an [int], as an f-string prints it. *)
Definition str (n : Z) : string := NilZero.string_of_int (Z.to_int n).

(** ** Exceptions *)

(** What the libraries raise: [aiohttp.ClientError] with all its
    subclasses, the [ResourceExistsError] of the Azure SDK for a container
    that is already there, and everything else.  No library raises FastAPI's
    [HTTPException]. *)
Inductive lib_exn : Type :=
| ClientError (msg : string)
| ResourceExistsError
| LibraryError (msg : string).

(** The exceptions of the program, all subclasses of Python's [Exception]:
    FastAPI's [HTTPException], the libraries' exceptions, and [Exception]
    for the program's own [raise Exception(...)] and for the interpreter's
    [ValueError]. *)
Inductive exn : Type :=
| HTTPException (status_code : Z) (detail : string)
| Library (e : lib_exn)
| Exception (msg : string).

Inductive result (A : Type) : Type :=
| Ok (a : A)
| Raise (e : exn).
Arguments Ok {A} a.
Arguments Raise {A} e.

(** What a library call does: return a value or raise. *)
Inductive answer (A : Type) : Type :=
| Returns (a : A)
| Throws (e : lib_exn).
Arguments Returns {A} a.
Arguments Throws {A} e.

Definition result_of {A} (a : answer A) : result A :=
  match a with
  | Returns v => Ok v
  | Throws e => Raise (Library e)
  end.

(** ** The world outside the process *)

(** What the process does to the outside, in the order it happens. *)
Inductive event : Type :=
| EvGet (url : string)            (* session.get(url, allow_redirects=True) *)
| EvRead                          (* await response.read() *)
| EvOpen                          (* fitz.open(stream=pdf_bytes, filetype="pdf") *)
| EvRasterize (page_num : nat)    (* load_page, get_pixmap, tobytes of one page *)
| EvCreateContainer               (* await container_client.create_container() *)
| EvUploadBlob (filename : string). (* await blob_client.upload_blob(...) *)

(** The journal of calls made so far (latest last) and the objects of the
    storage container, by blob name. *)
Record World : Type := mkWorld {
  events : list event;
  blobs : gmap string bytes
}.

Definition emit (ev : event) (w : World) : World :=
  mkWorld (events w ++ [ev]) (blobs w).

Definition store (filename : string) (data : bytes) (w : World) : World :=
  mkWorld (events w) (<[filename := data]> (blobs w)).

(** ** The monad of coroutine bodies: state and exceptions *)

Definition M (A : Type) : Type := World -> World * result A.

Definition ret {A} (a : A) : M A := fun w => (w, Ok a).

Definition raise {A} (e : exn) : M A := fun w => (w, Raise e).

Definition bind {A B} (c : M A) (k : A -> M B) : M B :=
  fun w =>
    match c w with
    | (w', Ok a) => k a w'
    | (w', Raise e) => (w', Raise e)
    end.

(** [try: c except e: h e].  The handler runs in the world the body left. *)
Definition try_except {A} (c : M A) (h : exn -> M A) : M A :=
  fun w =>
    match c w with
    | (w', Ok a) => (w', Ok a)
    | (w', Raise e) => h e w'
    end.

(** An external call: journal it, then return or raise what it answered. *)
Definition call {A} (ev : event) (a : answer A) : M A :=
  fun w => (emit ev w, result_of a).

(** A library call that stays inside the process. *)
Definition local_call {A} (a : answer A) : M A := fun w => (w, result_of a).

Declare Scope py_scope.
Delimit Scope py_scope with py.
Notation "x <- c ;; k" := (bind c (fun x => k))
  (at level 100, c at next level, right associativity) : py_scope.
Notation "c ;;; k" := (bind c (fun _ => k))
  (at level 100, right associativity) : py_scope.
Local Open Scope py_scope.

(** ** Strings *)

(** [c.lower()] on one character: [A]-[Z] go to [a]-[z].  Strings are
    sequences of 8-bit characters here; Python lower-cases no character
    outside ASCII to [p], [d] or [f], so the test below is not affected. *)
Definition lower_ascii (c : ascii) : ascii :=
  let n := nat_of_ascii c in
  if ((65 <=? n)%nat && (n <=? 90)%nat)%bool then ascii_of_nat (n + 32) else c.

(** [s.lower()]. *)
Fixpoint lower (s : string) : string :=
  match s with
  | EmptyString => EmptyString
  | String c s' => String (lower_ascii c) (lower s')
  end.

(** [needle in hay] on strings. *)
Fixpoint str_in (needle hay : string) : bool :=
  String.prefix needle hay ||
  match hay with
  | EmptyString => false
  | String _ hay' => str_in needle hay'
  end.

(** [headers.get(key, default)] of aiohttp's case-insensitive multi-dict:
    the value of the first entry whose name equals [key] up to case. *)
Fixpoint headers_get (headers : list (string * string)) (key default : string)
  : string :=
  match headers with
  | [] => default
  | (k, v) :: rest =>
      if String.eqb (lower k) (lower key) then v
      else headers_get rest key default
  end.

(** ** The system's surroundings *)

(** The [response] object of [session.get]. *)
Record ClientResponse : Type := mkResponse {
  status : Z;
  headers : list (string * string);
  read : answer bytes               (* what [await response.read()] does *)
}.

(** The [doc] object of [fitz.open]: [get_png n] is what
    [doc.load_page(n).get_pixmap(dpi=100).tobytes("png")] does. *)
Record Document : Type := mkDocument {
  page_count : nat;
  get_png : nat -> answer bytes
}.

Record Env : Type := mkEnv {
  (* aiohttp *)
  session_get : string -> answer ClientResponse;
  (* PyMuPDF *)
  fitz_open : bytes -> answer Document;
  (* os.getenv; the process does not start without a connection string *)
  AZURE_CONTAINER_NAME : option string;
  AZURE_STORAGE_CONNECTION_STRING : string;
  (* Azure SDK; the first argument of the per-upload calls is the blob name
     of the upload that makes the call *)
  get_container_client : string -> answer unit;
  create_container : string -> answer unit;
  get_blob_client : string -> answer unit;
  upload_blob : string -> bytes -> answer unit;
  blob_client_url : string -> string -> string;   (* container, blob name *)
  generate_blob_sas : string -> string -> string -> string -> answer string
    (* account_name, container_name, blob_name, account_key; the expiry,
       utcnow() + 24 hours, is the clock's and stays inside the answer *)
}.

Section Pipeline.

Context (env : Env).

(** ** [download_pdf] *)

Definition MAX_PDF_SIZE : Z := 100 * 1024 * 1024.

(** The failures the body of [download_pdf] raises itself. *)
Definition RemoteFetchError (status : Z) : exn :=
  HTTPException 400 ("Failed to download PDF. Status code: " +:+ str status).

Definition UnsupportedContentType (content_type : string) : exn :=
  HTTPException 400
    ("URL does not point to a PDF file. Content-Type: " +:+ content_type).

Definition PayloadTooLarge : exn :=
  HTTPException 400 "PDF file is too large.".

(** The content-type test of line 79, positively: ['pdf' in
    content_type.lower()]. *)
Definition indicates_pdf (content_type : string) : bool :=
  str_in "pdf" (lower content_type).

(** The statements under [try:]. *)
Definition download_pdf_try (url : string) : M bytes :=
  response <- call (EvGet url) (session_get env url) ;;
  if negb (status response =? 200) then
    raise (RemoteFetchError (status response))
  else
    let content_type := headers_get (headers response) "Content-Type" EmptyString in
    if negb (indicates_pdf content_type) then
      raise (UnsupportedContentType content_type)
    else
      pdf_bytes <- call EvRead (read response) ;;
      if len pdf_bytes >? MAX_PDF_SIZE then raise PayloadTooLarge
      else ret pdf_bytes.

(** The two [except] clauses, tried in order: [aiohttp.ClientError] first,
    then [Exception], which every other exception of [exn] is. *)
Definition download_pdf_except (e : exn) : M bytes :=
  match e with
  | Library (ClientError _) =>
      raise (HTTPException 400 "Client error occurred while downloading PDF.")
  | _ => raise (HTTPException 500 "Unexpected error occurred.")
  end.

Definition download_pdf (url : string) : M bytes :=
  try_except (download_pdf_try url) download_pdf_except.

(** ** [convert_pdf_to_images] *)

Definition MAX_PAGE_COUNT : nat := 3000.

(** The failure the body of [convert_pdf_to_images] raises itself. *)
Definition TooManyPages (page_count : nat) : exn :=
  HTTPException 400
    ("PDF has too many pages (" +:+ str (Z.of_nat page_count)
     +:+ "). Maximum allowed is " +:+ str (Z.of_nat MAX_PAGE_COUNT) +:+ ".").

(** [range(n)]. *)
Definition range (n : nat) : list nat := seq 0 n.

(** The [for page_num in ...] loop over the page numbers left, with the
    list built so far. *)
Fixpoint render_pages (doc : Document) (page_nums : list nat)
    (image_bytes_list : list bytes) : M (list bytes) :=
  match page_nums with
  | [] => ret image_bytes_list
  | page_num :: rest =>
      image_bytes <- call (EvRasterize page_num) (get_png doc page_num) ;;
      render_pages doc rest (image_bytes_list ++ [image_bytes])
  end.

(** The statements under [try:]. *)
Definition convert_pdf_to_images_try (pdf_bytes : bytes) : M (list bytes) :=
  doc <- call EvOpen (fitz_open env pdf_bytes) ;;
  if (MAX_PAGE_COUNT <? page_count doc)%nat then
    raise (TooManyPages (page_count doc))
  else
    render_pages doc (range (Nat.min (page_count doc) MAX_PAGE_COUNT)) [].

(** The one [except Exception] clause. *)
Definition convert_pdf_to_images_except (e : exn) : M (list bytes) :=
  raise (HTTPException 500 "Error converting PDF to images.").

Definition convert_pdf_to_images (pdf_bytes : bytes) : M (list bytes) :=
  try_except (convert_pdf_to_images_try pdf_bytes) convert_pdf_to_images_except.

(** ** [upload_image_to_azure_blob] *)

(** [s.split(sep)] for a one-character separator: never empty. *)
Fixpoint split (sep : ascii) (s : string) : list string :=
  match s with
  | EmptyString => [EmptyString]
  | String c s' =>
      if Ascii.eqb c sep then EmptyString :: split sep s'
      else match split sep s' with
           | [] => [String c EmptyString]
           | part :: parts => String c part :: parts
           end
  end.

(** [key, value = part.split(sep, 1)]: [None] when [part] has no [sep], where
    the unpacking raises [ValueError]. *)
Fixpoint split_once (sep : ascii) (part : string) : option (string * string) :=
  match part with
  | EmptyString => None
  | String c part' =>
      if Ascii.eqb c sep then Some (EmptyString, part')
      else match split_once sep part' with
           | Some (key, value) => Some (String c key, value)
           | None => None
           end
  end.

(** The loop of [parse_connection_string] over the parts left. *)
Fixpoint parse_parts (parts : list string) (conn_dict : gmap string string)
  : M (gmap string string) :=
  match parts with
  | [] => ret conn_dict
  | part :: rest =>
      match split_once "=" part with
      | None => raise (Exception "not enough values to unpack (expected 2, got 1)")
      | Some (key, value) => parse_parts rest (<[key := value]> conn_dict)
      end
  end.

Definition parse_connection_string (connection_string : string)
  : M (gmap string string) :=
  parse_parts (split ";" connection_string) ∅.

(** [not v] for the result of [os.getenv] or [dict.get]: [None] or the empty string. *)
Definition falsy (v : option string) : bool :=
  match v with
  | None | Some EmptyString => true
  | Some _ => false
  end.

(** [await blob_client.upload_blob(image_bytes, overwrite=True)]: when the
    service accepts it, the object is stored under the blob's name. *)
Definition blob_write (filename : string) (image_bytes : bytes) : M unit :=
  fun w =>
    match upload_blob env filename image_bytes with
    | Throws e => (emit (EvUploadBlob filename) w, Raise (Library e))
    | Returns _ =>
        (store filename image_bytes (emit (EvUploadBlob filename) w), Ok tt)
    end.

(** The body between two [await]s.  Lines 123-131: up to the request that
    creates the container. *)
Definition upload_begin : M string :=
  if falsy (AZURE_CONTAINER_NAME env) then
    raise (Exception "Azure container name not found in environment variables.")
  else
    let container_name := default EmptyString (AZURE_CONTAINER_NAME env) in
    local_call (get_container_client env container_name) ;;;
    ret container_name.

(** Lines 131-139: the container request answers, whatever it raises is
    logged and dropped, and the blob is sent. *)
Definition upload_create (filename : string) : M unit :=
  try_except (call EvCreateContainer (create_container env filename))
             (fun _ => ret tt) ;;;
  local_call (get_blob_client env filename).

(** Lines 141-169: the account of the connection string signs the URL. *)
Definition sign_blob_url (filename container_name : string) : M string :=
  conn_params <- parse_connection_string (AZURE_STORAGE_CONNECTION_STRING env) ;;
  let account_name := conn_params !! "AccountName" in
  let account_key := conn_params !! "AccountKey" in
  if falsy account_name || falsy account_key then
    raise (Exception "Account name or key not found in connection string.")
  else
    sas_token <- local_call (generate_blob_sas env
                               (default EmptyString account_name)
                               container_name filename
                               (default EmptyString account_key)) ;;
    ret (blob_client_url env container_name filename +:+ "?" +:+ sas_token).

(** Lines 139-169: the blob request answers, the URL is signed. *)
Definition upload_finish (image_bytes : bytes) (filename container_name : string)
  : M string :=
  blob_write filename image_bytes ;;;
  sign_blob_url filename container_name.

(** The one [except Exception] clause. *)
Definition upload_except {A} (e : exn) : M A :=
  raise (HTTPException 500 "Error uploading images.").

(** The coroutine run on its own, from call to return. *)
Definition upload_image_to_azure_blob (image_bytes : bytes) (filename : string)
  : M string :=
  try_except
    (container_name <- upload_begin ;;
     upload_create filename ;;;
     upload_finish image_bytes filename container_name)
    upload_except.

(** The same coroutine as the event loop sees it: suspended at one of its
    two [await]s, or not started, or returned. *)
Inductive coroutine : Type :=
| NotStarted (image_bytes : bytes) (filename : string)
| AwaitCreateContainer (image_bytes : bytes) (filename container_name : string)
| AwaitUploadBlob (image_bytes : bytes) (filename container_name : string)
| Returned (r : result string).

(** Run a piece of the body; an exception goes through the [except] clause
    and ends the coroutine. *)
Definition advance {A} (c : M A) (next : A -> coroutine)
  : World -> World * coroutine :=
  fun w =>
    match c w with
    | (w', Ok a) => (w', next a)
    | (w', Raise e) =>
        let '(w'', r) := upload_except e w' in (w'', Returned r)
    end.

(** The event loop resumes a coroutine: it runs to its next [await]. *)
Definition resume (c : coroutine) : World -> World * coroutine :=
  match c with
  | NotStarted image_bytes filename =>
      advance upload_begin (AwaitCreateContainer image_bytes filename)
  | AwaitCreateContainer image_bytes filename container_name =>
      advance (upload_create filename)
              (fun _ => AwaitUploadBlob image_bytes filename container_name)
  | AwaitUploadBlob image_bytes filename container_name =>
      advance (upload_finish image_bytes filename container_name)
              (fun blob_url => Returned (Ok blob_url))
  | Returned r => fun w => (w, Returned r)
  end.

(** ** [asyncio.gather] over the upload coroutines *)

(** The state of [gather]: its coroutines by position, and the exception it
    hands to its awaiter, the first one any of them raised. *)
Record Gather : Type := mkGather {
  coroutines : list coroutine;
  first_exception : option exn
}.

Definition note_exception (first : option exn) (c : coroutine) : option exn :=
  match first, c with
  | None, Returned (Raise e) => Some e
  | _, _ => first
  end.

(** The event loop resumes the coroutine at position [k].  A position out
    of range or a coroutine that has returned leaves everything as it is. *)
Definition gather_step (k : nat) (g : Gather) (w : World) : World * Gather :=
  match coroutines g !! k with
  | None => (w, g)
  | Some (Returned _) => (w, g)
  | Some c =>
      let '(w', c') := resume c w in
      (w', mkGather (<[k := c']> (coroutines g))
                    (note_exception (first_exception g) c'))
  end.

(** The event loop resumes the positions of a schedule, one after the other. *)
Fixpoint gather_run (sched : list nat) (g : Gather) (w : World)
  : World * Gather :=
  match sched with
  | [] => (w, g)
  | k :: sched' => let '(w', g') := gather_step k g w in gather_run sched' g' w'
  end.

(** Every coroutine has two [await]s, so three resumptions end it. *)
Definition drain (n : nat) : list nat :=
  flat_map (fun k => [k; k; k]) (range n).

Definition returned_value (c : coroutine) : option string :=
  match c with
  | Returned (Ok v) => Some v
  | _ => None
  end.

(** [await asyncio.gather] over [upload_tasks].  [sched] is the order in which
    the answers of the storage service arrive, any list of positions; what
    it leaves unfinished is then run to the end, so that every interleaving
    of the uploads is [sched] for some list and [gather] always returns.
    The values are read by position.  The coroutines of a failed [gather]
    are not cancelled and still run. *)
Definition gather (sched : list nat) (upload_tasks : list (bytes * string))
  : M (list string) :=
  fun w =>
    let g0 := mkGather (map (fun t => NotStarted (fst t) (snd t)) upload_tasks)
                       None in
    let '(w', g) := gather_run (sched ++ drain (length upload_tasks)) g0 w in
    (w', match first_exception g with
         | Some e => Raise e
         | None => Ok (omap returned_value (coroutines g))
         end).

(** ** The endpoint [POST /convert-pdf] *)

(** [f"page{idx + 1}.png"]. *)
Definition page_filename (idx : nat) : string :=
  "page" +:+ str (Z.of_nat (idx + 1)) +:+ ".png".

(** [enumerate] and the list comprehension of lines 181-184. *)
Definition upload_tasks_of (image_bytes_list : list bytes)
  : list (bytes * string) :=
  imap (fun idx image_bytes => (image_bytes, page_filename idx)) image_bytes_list.

Definition EmptyResult : exn :=
  HTTPException 500 "No images were generated.".

Definition convert_pdf (sched : list nat) (url : string) : M (list string) :=
  pdf_bytes <- download_pdf url ;;
  image_bytes_list <- convert_pdf_to_images pdf_bytes ;;
  image_urls <- gather sched (upload_tasks_of image_bytes_list) ;;
  match image_urls with
  | [] => raise EmptyResult
  | _ :: _ => ret image_urls
  end.

End Pipeline.

(** What FastAPI sends for what the handler does: the returned dict as JSON
    with status 200, an [HTTPException] as its status and
    [{"detail": ...}], any other exception as a bare 500. *)
Inductive Body : Type :=
| Images (images : list string)   (* {"images": [...]} *)
| Detail (detail : string)        (* {"detail": "..."} *)
| InternalServerError.

Record Response : Type := mkReply {
  response_status : Z;
  response_body : Body
}.

Definition respond (r : result (list string)) : Response :=
  match r with
  | Ok image_urls => mkReply 200 (Images image_urls)
  | Raise (HTTPException status_code detail) => mkReply status_code (Detail detail)
  | Raise _ => mkReply 500 InternalServerError
  end.

(** The response to [POST /convert-pdf] once the body has passed
    validation and the handler runs: [url] is [str(pdf.url)]. *)
Definition post_convert_pdf (env : Env) (sched : list nat) (url : string)
    (w : World) : Response :=
  respond (snd (convert_pdf env sched url w)).

(** ** Sample surroundings *)

Module Sample.

Definition pdf_headers : list (string * string) :=
  [("Server", "nginx"); ("Content-Type", "application/pdf")]%string.

Definition png (n : nat) : bytes := [x89; x50; x4e; x47; default x00 (Byte.of_nat n)].

(** A server that answers every URL with [response], a document of
    [pages] pages, and a storage account where everything works. *)
Definition env_of (response : answer ClientResponse) (pages : nat) : Env :=
  {| session_get := fun _ => response;
     fitz_open := fun _ => Returns (mkDocument pages (fun n => Returns (png n)));
     AZURE_CONTAINER_NAME := Some "pngs"%string;
     AZURE_STORAGE_CONNECTION_STRING :=
       "DefaultEndpointsProtocol=https;AccountName=acct;AccountKey=a2V5;EndpointSuffix=core.windows.net"%string;
     get_container_client := fun _ => Returns tt;
     create_container := fun _ => Throws ResourceExistsError;
     get_blob_client := fun _ => Returns tt;
     upload_blob := fun _ _ => Returns tt;
     blob_client_url := fun container_name filename =>
       "https://acct.blob.core.windows.net/" +:+ container_name +:+ "/" +:+ filename;
     generate_blob_sas := fun _ _ filename _ => Returns ("sig=" +:+ filename) |}.

Definition w0 : World := mkWorld [] ∅.

(** A body of [n] zero bytes. *)
Definition zeros (n : Z) : bytes := repeat x00 (Z.to_nat n).

Definition doc_url : string := "https://example.com/doc.pdf".

End Sample.

(** ** Vocabulary of the statements *)

(** The declared content type of a response, as line 77 reads it. *)
Definition content_type_of (r : ClientResponse) : string :=
  headers_get (headers r) "Content-Type" EmptyString.

(** A success status, 2xx. *)
Definition is_2xx (s : Z) : Prop := 200 <= s < 300.

(** The three letters [p], [d], [f], each in either case, one after the
    other somewhere in [s]. *)
Definition contains_pdf_any_case (s : string) : Prop :=
  exists (pre post : string) (c1 c2 c3 : ascii),
    s = pre +:+ String c1 (String c2 (String c3 post)) /\
    (c1 = "p" \/ c1 = "P")%char /\
    (c2 = "d" \/ c2 = "D")%char /\
    (c3 = "f" \/ c3 = "F")%char.

(** No header of the list is named Content-Type, in any case. *)
Definition no_content_type (hs : list (string * string)) : Prop :=
  Forall (fun kv => lower (fst kv) <> "content-type"%string) hs.

(** A computation that leaves the world alone and whose result does not
    depend on it. *)
Definition stateless {A} (c : M A) : Prop :=
  exists r, forall w, c w = (w, r).

(** A computation whose result does not depend on the world it starts in. *)
Definition world_blind {A} (c : M A) : Prop :=
  forall w w', snd (c w) = snd (c w').

(** How far a coroutine has come: the number of resumptions behind it. *)
Definition stage (c : coroutine) : nat :=
  match c with
  | NotStarted _ _ => 0
  | AwaitCreateContainer _ _ _ => 1
  | AwaitUploadBlob _ _ _ => 2
  | Returned _ => 3
  end.

(** The client-facing error of a failed upload. *)
Definition UploadFailed : exn := HTTPException 500 "Error uploading images.".

(** What is left of the body of a suspended upload. *)
Definition rest (env : Env) (c : coroutine) : M string :=
  match c with
  | NotStarted image_bytes filename =>
      upload_image_to_azure_blob env image_bytes filename
  | AwaitCreateContainer image_bytes filename container_name =>
      try_except
        (upload_create env filename ;;;
         upload_finish env image_bytes filename container_name)
        upload_except
  | AwaitUploadBlob image_bytes filename container_name =>
      try_except (upload_finish env image_bytes filename container_name)
                 upload_except
  | Returned r => fun w => (w, r)
  end.

(** What an upload returns or raises in the end. *)
Definition eventual (env : Env) (c : coroutine) : result string :=
  snd (rest env c (mkWorld [] ∅)).

Definition upload_result (env : Env) (t : bytes * string) : result string :=
  eventual env (NotStarted (fst t) (snd t)).

(** The upload that a coroutine belongs to. *)
Definition task_of (c : coroutine) : option (bytes * string) :=
  match c with
  | NotStarted image_bytes filename
  | AwaitCreateContainer image_bytes filename _
  | AwaitUploadBlob image_bytes filename _ => Some (image_bytes, filename)
  | Returned _ => None
  end.

(** The same surroundings with another behaviour of [create_container]. *)
Definition with_create_container (env : Env) (f : string -> answer unit) : Env :=
  {| session_get := session_get env;
     fitz_open := fitz_open env;
     AZURE_CONTAINER_NAME := AZURE_CONTAINER_NAME env;
     AZURE_STORAGE_CONNECTION_STRING := AZURE_STORAGE_CONNECTION_STRING env;
     get_container_client := get_container_client env;
     create_container := f;
     get_blob_client := get_blob_client env;
     upload_blob := upload_blob env;
     blob_client_url := blob_client_url env;
     generate_blob_sas := generate_blob_sas env |}.

(** The container client cannot be set up: the name of the container is
    not configured, or [get_container_client] raises. *)
Definition setup_fails (env : Env) : Prop :=
  falsy (AZURE_CONTAINER_NAME env) = true
  \/ exists e, get_container_client env
                 (default EmptyString (AZURE_CONTAINER_NAME env)) = Throws e.

(** The coroutine at position [k] has returned. *)
Definition returned_at (g : Gather) (k : nat) : Prop :=
  exists r, coroutines g !! k = Some (Returned r).

(** What holds of [gather] over [tasks] whenever the event loop looks:
    every coroutine is still going to return what its upload returns, and
    either is on its way, or has returned a URL with its blob in the store,
    or has raised the 500 that [gather] then hands on. *)
Definition gather_inv (env : Env) (tasks : list (bytes * string))
    (g : Gather) (w : World) : Prop :=
  length (coroutines g) = length tasks
  /\ (forall k c t,
        coroutines g !! k = Some c -> tasks !! k = Some t ->
        eventual env c = upload_result env t
        /\ (task_of c = Some t
            \/ (exists u, c = Returned (Ok u)
                          /\ blobs w !! snd t = Some (fst t))
            \/ (c = Returned (Raise UploadFailed)
                /\ first_exception g = Some UploadFailed)))
  /\ (forall e, first_exception g = Some e ->
        e = UploadFailed
        /\ exists k, coroutines g !! k = Some (Returned (Raise UploadFailed))).

(** What [gather] over [tasks] may leave: URLs, one for each upload and in
    their order, each the result of its upload and with its blob stored; or
    the 500 of an upload that fails. *)
Definition gather_post (env : Env) (tasks : list (bytes * string))
    (out : World * result (list string)) : Prop :=
  match snd out with
  | Ok image_urls =>
      Forall2 (fun t u => upload_result env t = Ok u
                          /\ blobs (fst out) !! snd t = Some (fst t))
              tasks image_urls
  | Raise e =>
      e = UploadFailed
      /\ exists t, In t tasks /\ upload_result env t = Raise UploadFailed
  end.

(** No two uploads of the list write the same blob. *)
Definition distinct_names (tasks : list (bytes * string)) : Prop :=
  forall j k tj tk,
    tasks !! j = Some tj -> tasks !! k = Some tk -> snd tj = snd tk -> j = k.

(** A storage account whose container requests time out and whose blob
    requests go through. *)
Definition env_flaky : Env :=
  with_create_container
    (Sample.env_of
       (Returns (mkResponse 200 Sample.pdf_headers (Returns [x25]))) 1)
    (fun _ => Throws (LibraryError "ServiceRequestError: timed out")).

(** ** Vocabulary of the further statements *)

(** The client-facing errors of the download and of the conversion. *)
Definition ClientErrorOccurred : exn :=
  HTTPException 400 "Client error occurred while downloading PDF.".

Definition UnexpectedError : exn :=
  HTTPException 500 "Unexpected error occurred.".

Definition ConversionFailed : exn :=
  HTTPException 500 "Error converting PDF to images.".


(** [c in s] for one character. *)
Fixpoint occurs (c : ascii) (s : string) : bool :=
  match s with
  | EmptyString => false
  | String c' s' => Ascii.eqb c' c || occurs c s'
  end.

(** [sep.join(parts)]. *)
Fixpoint join (sep : ascii) (parts : list string) : string :=
  match parts with
  | [] => EmptyString
  | part :: rest =>
      match rest with
      | [] => part
      | _ :: _ => part +:+ String sep (join sep rest)
      end
  end.

(** [f"{key}={value}"], one part of a connection string. *)
Definition key_value (kv : string * string) : string :=
  fst kv +:+ String "=" (snd kv).

(** The dictionary after the assignments [conn_dict[key] = value] for the
    pairs of a list, in order. *)
Definition assign_all (pairs : list (string * string))
    (conn_dict : gmap string string) : gmap string string :=
  fold_left (fun d kv => <[fst kv := snd kv]> d) pairs conn_dict.

(** The value that the connection string of the process gives a key. *)
Definition conn_param (env : Env) (key : string) : option string :=
  match snd (parse_connection_string (AZURE_STORAGE_CONNECTION_STRING env)
                                     (mkWorld [] ∅)) with
  | Ok conn_params => conn_params !! key
  | Raise _ => None
  end.

(** The container is configured and its client is there. *)
Definition container_ready (env : Env) (container_name : string) : Prop :=
  AZURE_CONTAINER_NAME env = Some container_name
  /\ container_name <> EmptyString
  /\ get_container_client env container_name = Returns tt.

(** The connection string names an account and a key. *)
Definition credentials (env : Env) (account_name account_key : string) : Prop :=
  conn_param env "AccountName" = Some account_name
  /\ account_name <> EmptyString
  /\ conn_param env "AccountKey" = Some account_key
  /\ account_key <> EmptyString.

(** A storage account where every call of an upload goes through. *)
Definition storage_works (env : Env) : Prop :=
  exists container_name account_name account_key,
    container_ready env container_name
    /\ credentials env account_name account_key
    /\ (forall filename, get_blob_client env filename = Returns tt)
    /\ (forall filename image_bytes,
          upload_blob env filename image_bytes = Returns tt)
    /\ (forall filename, exists sas_token,
          generate_blob_sas env account_name container_name filename
                            account_key = Returns sas_token).




(** A storage account that takes every blob but [page2.png]. *)
Definition env_page2_fails : Env :=
  {| session_get := fun _ =>
       Returns (mkResponse 200 Sample.pdf_headers (Returns [x25]));
     fitz_open := fun _ =>
       Returns (mkDocument 3 (fun n => Returns (Sample.png n)));
     AZURE_CONTAINER_NAME := Some "pngs"%string;
     AZURE_STORAGE_CONNECTION_STRING := "AccountName=acct;AccountKey=a2V5";
     get_container_client := fun _ => Returns tt;
     create_container := fun _ => Returns tt;
     get_blob_client := fun _ => Returns tt;
     upload_blob := fun filename _ =>
       if String.eqb filename "page2.png"
       then Throws (LibraryError "ServiceResponseError") else Returns tt;
     blob_client_url := fun container_name filename =>
       "https://acct.blob.core.windows.net/" +:+ container_name +:+ "/"
       +:+ filename;
     generate_blob_sas := fun _ _ filename _ => Returns ("sig=" +:+ filename) |}.

(** Two one-page documents, at two URLs; the page image of a document is
    taken to be its bytes. *)
Definition env_two_docs : Env :=
  {| session_get := fun url =>
       Returns (mkResponse 200 Sample.pdf_headers
                  (Returns (if String.eqb url "https://example.com/a.pdf"
                            then [x01] else [x02])));
     fitz_open := fun pdf_bytes =>
       Returns (mkDocument 1 (fun _ => Returns pdf_bytes));
     AZURE_CONTAINER_NAME := Some "pngs"%string;
     AZURE_STORAGE_CONNECTION_STRING := "AccountName=acct;AccountKey=a2V5";
     get_container_client := fun _ => Returns tt;
     create_container := fun _ => Returns tt;
     get_blob_client := fun _ => Returns tt;
     upload_blob := fun _ _ => Returns tt;
     blob_client_url := fun container_name filename =>
       "https://acct.blob.core.windows.net/" +:+ container_name +:+ "/"
       +:+ filename;
     generate_blob_sas := fun _ _ filename _ => Returns ("sig=" +:+ filename) |}.

(** * Properties *)

(** ** [download_pdf] *)

Section Download.

Context (env : Env) (url : string) (w : World).

Lemma download_pdf_try_throws e :
  session_get env url = Throws e ->
  download_pdf_try env url w = (emit (EvGet url) w, Raise (Library e)).
Proof.
  intros Hget. unfold download_pdf_try, bind, call. now rewrite Hget.
Qed.

Lemma download_pdf_try_status r :
  session_get env url = Returns r ->
  status r <> 200 ->
  download_pdf_try env url w
  = (emit (EvGet url) w, Raise (RemoteFetchError (status r))).
Proof.
  intros Hget Hst. unfold download_pdf_try, bind, call. rewrite Hget. simpl.
  apply Z.eqb_neq in Hst. now rewrite Hst.
Qed.

Lemma download_pdf_try_content_type r :
  session_get env url = Returns r ->
  status r = 200 ->
  indicates_pdf (content_type_of r) = false ->
  download_pdf_try env url w
  = (emit (EvGet url) w, Raise (UnsupportedContentType (content_type_of r))).
Proof.
  intros Hget Hst Hct. unfold download_pdf_try, bind, call. rewrite Hget. simpl.
  rewrite Hst. simpl. fold (content_type_of r). now rewrite Hct.
Qed.

Lemma download_pdf_try_read r :
  session_get env url = Returns r ->
  status r = 200 ->
  indicates_pdf (content_type_of r) = true ->
  download_pdf_try env url w
  = (emit EvRead (emit (EvGet url) w),
     match read r with
     | Throws e => Raise (Library e)
     | Returns pdf_bytes =>
         if len pdf_bytes >? MAX_PDF_SIZE then Raise PayloadTooLarge
         else Ok pdf_bytes
     end).
Proof.
  intros Hget Hst Hct. unfold download_pdf_try, bind, call. rewrite Hget. simpl.
  rewrite Hst. simpl. fold (content_type_of r). rewrite Hct. simpl.
  destruct (read r) as [pdf_bytes|e]; simpl; [|reflexivity].
  now destruct (len pdf_bytes >? MAX_PDF_SIZE).
Qed.

(** Whatever [HTTPException] the body raises, the second [except] clause
    turns into a 500. *)
Lemma download_pdf_http_exception w' status_code detail :
  download_pdf_try env url w = (w', Raise (HTTPException status_code detail)) ->
  download_pdf env url w
  = (w', Raise (HTTPException 500 "Unexpected error occurred.")).
Proof.
  intros Htry. unfold download_pdf, try_except. now rewrite Htry.
Qed.

Lemma download_pdf_ok w' pdf_bytes :
  download_pdf_try env url w = (w', Ok pdf_bytes) ->
  download_pdf env url w = (w', Ok pdf_bytes).
Proof.
  intros Htry. unfold download_pdf, try_except. now rewrite Htry.
Qed.

(** A failed download ends the request with the download's exception. *)
Lemma convert_pdf_download_raises sched w' e :
  download_pdf env url w = (w', Raise e) ->
  convert_pdf env sched url w = (w', Raise e).
Proof.
  intros Hd. unfold convert_pdf, bind. now rewrite Hd.
Qed.

End Download.

(** ** The substring test on the content type *)

Section ContentType.

(** stdpp keeps [append] folded; these two equations unfold it. *)
Lemma append_nil (s : string) : EmptyString +:+ s = s.
Proof. reflexivity. Qed.

Lemma append_cons (c : ascii) (s t : string) :
  String c s +:+ t = String c (s +:+ t).
Proof. reflexivity. Qed.

Lemma prefix_append (needle hay : string) :
  String.prefix needle hay = true <-> exists post, hay = needle +:+ post.
Proof.
  revert hay. induction needle as [|c needle IH]; intros hay.
  - split; [intros _; now exists hay | now destruct hay].
  - destruct hay as [|c' hay]; simpl.
    + split; [discriminate | intros [post Hp]; discriminate].
    + destruct (ascii_dec c c') as [->|Hne].
      * rewrite IH. split; intros [post Hp]; exists post.
        -- now rewrite Hp.
        -- rewrite append_cons in Hp. now inversion Hp.
      * split; [discriminate|]. intros [post Hp].
        rewrite append_cons in Hp. congruence.
Qed.

Lemma str_in_append (needle hay : string) :
  str_in needle hay = true <-> exists pre post, hay = pre +:+ needle +:+ post.
Proof.
  induction hay as [|c hay IH]; cbn [str_in].
  - rewrite orb_false_r, prefix_append. split.
    + intros [post Hp]. now exists EmptyString, post.
    + intros [pre [post Hp]]. destruct pre; [now exists post | discriminate].
  - rewrite orb_true_iff, prefix_append, IH. split.
    + intros [[post Hp] | [pre [post Hp]]].
      * now exists EmptyString, post.
      * exists (String c pre), post. now rewrite append_cons, Hp.
    + intros [pre [post Hp]]. destruct pre as [|c' pre].
      * left. now exists post.
      * right. rewrite append_cons in Hp. inversion Hp. now exists pre, post.
Qed.

Lemma lower_append (a b : string) : lower (a +:+ b) = lower a +:+ lower b.
Proof.
  induction a as [|c a IH]; [reflexivity|].
  rewrite append_cons. simpl. now rewrite IH.
Qed.

(** A split of [lower s] comes from a split of [s]. *)
Lemma lower_split (s a b : string) :
  lower s = a +:+ b -> exists a' b', s = a' +:+ b' /\ lower a' = a /\ lower b' = b.
Proof.
  revert s. induction a as [|c a IH]; intros s Hs.
  - now exists EmptyString, s.
  - rewrite append_cons in Hs.
    destruct s as [|c' s]; [discriminate|]. simpl in Hs. inversion Hs as [[Hc Hrest]].
    destruct (IH s Hrest) as [a' [b' [-> [Ha Hb]]]].
    exists (String c' a'), b'. rewrite append_cons. simpl. now rewrite Ha, Hb.
Qed.

Lemma lower_ascii_cases (c : ascii) (l u : ascii) :
  (65 <= nat_of_ascii u <= 90)%nat ->
  l = ascii_of_nat (nat_of_ascii u + 32) ->
  lower_ascii c = l <-> c = l \/ c = u.
Proof.
  intros Hu ->. unfold lower_ascii.
  pose proof (nat_ascii_bounded c) as Hc.
  destruct ((65 <=? nat_of_ascii c)%nat && (nat_of_ascii c <=? 90)%nat) eqn:Hup.
  - apply andb_true_iff in Hup as [H1 H2].
    apply Nat.leb_le in H1, H2. split.
    + intros Heq. right.
      apply (f_equal nat_of_ascii) in Heq.
      rewrite !nat_ascii_embedding in Heq by lia.
      rewrite <- (ascii_nat_embedding c), <- (ascii_nat_embedding u).
      f_equal. lia.
    + intros [Heq | ->]; [|reflexivity]. exfalso. subst c.
      rewrite nat_ascii_embedding in H2 by lia. lia.
  - split; [now left|]. intros [Heq | ->]; [assumption|]. exfalso.
    apply andb_false_iff in Hup as [H|H]; apply Nat.leb_gt in H; lia.
Qed.

Lemma lower_ascii_p c : lower_ascii c = "p"%char <-> (c = "p" \/ c = "P")%char.
Proof. apply lower_ascii_cases; [vm_compute; lia | reflexivity]. Qed.

Lemma lower_ascii_d c : lower_ascii c = "d"%char <-> (c = "d" \/ c = "D")%char.
Proof. apply lower_ascii_cases; [vm_compute; lia | reflexivity]. Qed.

Lemma lower_ascii_f c : lower_ascii c = "f"%char <-> (c = "f" \/ c = "F")%char.
Proof. apply lower_ascii_cases; [vm_compute; lia | reflexivity]. Qed.

Lemma indicates_pdf_spec (content_type : string) :
  indicates_pdf content_type = true <-> contains_pdf_any_case content_type.
Proof.
  unfold indicates_pdf, contains_pdf_any_case. rewrite str_in_append. split.
  - intros [pre [post Hs]].
    apply lower_split in Hs as [pre' [rest [-> [Hpre Hrest]]]].
    rewrite !append_cons, append_nil in Hrest.
    destruct rest as [|c1 [|c2 [|c3 post']]]; try discriminate.
    simpl in Hrest. injection Hrest as H1 H2 H3 Hpost.
    exists pre', post', c1, c2, c3.
    split; [reflexivity|].
    split; [now apply lower_ascii_p|].
    split; [now apply lower_ascii_d | now apply lower_ascii_f].
  - intros [pre [post [c1 [c2 [c3 [-> [H1 [H2 H3]]]]]]]].
    exists (lower pre), (lower post). rewrite lower_append. simpl.
    apply lower_ascii_p in H1. apply lower_ascii_d in H2.
    apply lower_ascii_f in H3. now rewrite H1, H2, H3.
Qed.

Lemma headers_get_missing (hs : list (string * string)) :
  no_content_type hs -> headers_get hs "Content-Type" EmptyString = EmptyString.
Proof.
  induction 1 as [|[k v] hs Hk _ IH]; [reflexivity|].
  cbn [headers_get]. change (lower "Content-Type") with "content-type"%string.
  cbn [fst] in Hk. apply String.eqb_neq in Hk. now rewrite Hk.
Qed.

End ContentType.

(** ** What a client of [download_pdf] gets *)

Section DownloadClaims.

Import Sample.

(** C1 (where the code departs from the claim).  When the remote server
    answers 404, the body of [download_pdf] raises the 400 with detail
    "Failed to download PDF. Status code: 404" that the claim describes, but
    the [except Exception] clause of the same function catches it, and the
    endpoint answers status 500 with detail "Unexpected error occurred.". *)
Theorem not_found_is_answered_500 env sched url w r :
  session_get env url = Returns r ->
  status r = 404 ->
  snd (download_pdf_try env url w)
  = Raise (HTTPException 400 "Failed to download PDF. Status code: 404")
  /\ post_convert_pdf env sched url w
     = mkReply 500 (Detail "Unexpected error occurred.").
Proof.
  intros Hget Hst.
  assert (Htry : download_pdf_try env url w
                 = (emit (EvGet url) w, Raise (RemoteFetchError 404))).
  { rewrite <- Hst. apply download_pdf_try_status; [assumption | lia]. }
  split; [now rewrite Htry|].
  unfold post_convert_pdf.
  rewrite (convert_pdf_download_raises env url w sched _ _
             (download_pdf_http_exception env url w _ _ _ Htry)).
  reflexivity.
Qed.

Lemma not_found_is_answered_500_witness :
  post_convert_pdf
    (env_of (Returns (mkResponse 404 pdf_headers (Returns [x25]))) 3)
    [] doc_url w0
  = mkReply 500 (Detail "Unexpected error occurred.").
Proof.
  apply (not_found_is_answered_500 _ _ _ _
           (mkResponse 404 pdf_headers (Returns [x25]))); reflexivity.
Defined.

(** C3 (where the code departs from the claim).  When the response has
    status 200 and a content type without "pdf", the body of [download_pdf]
    raises [UnsupportedContentType] (a 400 naming the content type) and
    nothing is rendered or uploaded: the journal gains the GET alone.  But
    the [except Exception] clause catches that exception, and the endpoint
    answers status 500 with detail "Unexpected error occurred.", which does
    not mention the content type. *)
Theorem wrong_content_type_is_answered_500 env sched url w r :
  session_get env url = Returns r ->
  status r = 200 ->
  indicates_pdf (content_type_of r) = false ->
  snd (download_pdf_try env url w)
  = Raise (UnsupportedContentType (content_type_of r))
  /\ convert_pdf env sched url w
     = (emit (EvGet url) w,
        Raise (HTTPException 500 "Unexpected error occurred."))
  /\ post_convert_pdf env sched url w
     = mkReply 500 (Detail "Unexpected error occurred.").
Proof.
  intros Hget Hst Hct.
  pose proof (download_pdf_try_content_type env url w r Hget Hst Hct) as Htry.
  pose proof (convert_pdf_download_raises env url w sched _ _
                (download_pdf_http_exception env url w _ _ _ Htry)) as Hc.
  split; [now rewrite Htry|]. split; [exact Hc|].
  unfold post_convert_pdf. now rewrite Hc.
Qed.

Lemma wrong_content_type_is_answered_500_witness :
  post_convert_pdf
    (env_of (Returns (mkResponse 200 [("Content-Type", "text/html")]%string
                                 (Returns [x25]))) 3)
    [] doc_url w0
  = mkReply 500 (Detail "Unexpected error occurred.").
Proof.
  apply (wrong_content_type_is_answered_500 _ _ _ _
           (mkResponse 200 [("Content-Type", "text/html")]%string
                       (Returns [x25]))); reflexivity.
Defined.

(** C4 as stated fails: 201 is a success status, and the status check
    raises [RemoteFetchError] for it. *)
Lemma remote_fetch_error_on_201 :
  let r := mkResponse 201 pdf_headers (Returns [x25]) in
  is_2xx (status r)
  /\ snd (download_pdf_try (env_of (Returns r) 1) doc_url w0)
     = Raise (RemoteFetchError 201).
Proof. split; [unfold is_2xx; simpl; lia | reflexivity]. Qed.

(** C4 (amended).  The status check of [download_pdf] raises
    [RemoteFetchError], the 400 "Failed to download PDF. Status code: N",
    exactly when the response status is not 200: status 200 alone passes,
    and every other status, the other 2xx ones included, raises it. *)
Theorem remote_fetch_error_iff_not_200 env url w r :
  session_get env url = Returns r ->
  ((exists s, snd (download_pdf_try env url w) = Raise (RemoteFetchError s))
   <-> status r <> 200)
  /\ (status r <> 200 ->
      snd (download_pdf_try env url w) = Raise (RemoteFetchError (status r))).
Proof.
  intros Hget.
  assert (Hraise : status r <> 200 ->
            snd (download_pdf_try env url w)
            = Raise (RemoteFetchError (status r))).
  { intros Hst. now rewrite (download_pdf_try_status env url w r Hget Hst). }
  split; [|exact Hraise]. split; [|eauto].
  intros [s Hs] Hst.
  destruct (indicates_pdf (content_type_of r)) eqn:Hct.
  - rewrite (download_pdf_try_read env url w r Hget Hst Hct) in Hs. simpl in Hs.
    destruct (read r) as [pdf_bytes|e]; [|discriminate].
    destruct (len pdf_bytes >? MAX_PDF_SIZE); discriminate.
  - rewrite (download_pdf_try_content_type env url w r Hget Hst Hct) in Hs.
    discriminate.
Qed.

Lemma remote_fetch_error_iff_not_200_witness :
  snd (download_pdf_try
         (env_of (Returns (mkResponse 204 pdf_headers (Returns []))) 1)
         doc_url w0)
  = Raise (RemoteFetchError 204).
Proof.
  apply (remote_fetch_error_iff_not_200 _ doc_url w0
           (mkResponse 204 pdf_headers (Returns []))); [reflexivity|].
  simpl. lia.
Defined.

End DownloadClaims.

Section SizeAndTypeClaims.

Import Sample.

(** [PayloadTooLarge] comes from the size check and from nowhere else: the
    response had status 200 and a PDF content type, its body was read to
    the end, and the body is longer than the ceiling. *)
Lemma payload_too_large_only_after_read env url w :
  snd (download_pdf_try env url w) = Raise PayloadTooLarge ->
  exists r pdf_bytes,
    session_get env url = Returns r /\ status r = 200 /\
    indicates_pdf (content_type_of r) = true /\
    read r = Returns pdf_bytes /\ len pdf_bytes > MAX_PDF_SIZE /\
    events (fst (download_pdf_try env url w)) = events w ++ [EvGet url; EvRead].
Proof.
  intros Hr.
  destruct (session_get env url) as [r|e] eqn:Hget.
  2:{ rewrite (download_pdf_try_throws env url w e Hget) in Hr. discriminate. }
  destruct (Z.eq_dec (status r) 200) as [Hst|Hst].
  2:{ rewrite (download_pdf_try_status env url w r Hget Hst) in Hr.
      discriminate. }
  destruct (indicates_pdf (content_type_of r)) eqn:Hct.
  2:{ rewrite (download_pdf_try_content_type env url w r Hget Hst Hct) in Hr.
      discriminate. }
  rewrite (download_pdf_try_read env url w r Hget Hst Hct) in *. simpl in *.
  destruct (read r) as [pdf_bytes|e] eqn:Hread; [|discriminate].
  destruct (len pdf_bytes >? MAX_PDF_SIZE) eqn:Hlen; [|discriminate].
  apply Z.gtb_gt in Hlen.
  exists r, pdf_bytes. rewrite <- app_assoc. auto 10.
Qed.

(** The size check, once the checks before it have passed. *)
Lemma download_pdf_size_check env url w r pdf_bytes :
  session_get env url = Returns r ->
  status r = 200 ->
  indicates_pdf (content_type_of r) = true ->
  read r = Returns pdf_bytes ->
  (snd (download_pdf_try env url w) = Raise PayloadTooLarge
   <-> len pdf_bytes > MAX_PDF_SIZE)
  /\ events (fst (download_pdf_try env url w)) = events w ++ [EvGet url; EvRead]
  /\ (len pdf_bytes <= MAX_PDF_SIZE ->
      download_pdf env url w = (emit EvRead (emit (EvGet url) w), Ok pdf_bytes))
  /\ (len pdf_bytes > MAX_PDF_SIZE ->
      snd (download_pdf env url w)
      = Raise (HTTPException 500 "Unexpected error occurred.")).
Proof.
  intros Hget Hst Hct Hread.
  pose proof (download_pdf_try_read env url w r Hget Hst Hct) as Htry.
  rewrite Hread in Htry. split; [|split; [|split]].
  - rewrite Htry. simpl.
    destruct (len pdf_bytes >? MAX_PDF_SIZE) eqn:Hlen.
    + apply Z.gtb_gt in Hlen. tauto.
    + split; [discriminate|]. intros Hgt. apply Z.gtb_gt in Hgt. congruence.
  - rewrite Htry. simpl. now rewrite <- app_assoc.
  - intros Hle. apply download_pdf_ok. rewrite Htry.
    destruct (len pdf_bytes >? MAX_PDF_SIZE) eqn:Hlen; [|reflexivity].
    apply Z.gtb_gt in Hlen. lia.
  - intros Hgt. apply Z.gtb_gt in Hgt. rewrite Hgt in Htry.
    now rewrite (download_pdf_http_exception env url w _ _ _ Htry).
Qed.

Lemma len_zeros (n : Z) : 0 <= n -> len (zeros n) = n.
Proof.
  intros Hn. unfold len, zeros. rewrite repeat_length. now apply Z2Nat.id.
Qed.

(** A body of exactly 100 MiB is returned; with one more byte it is not. *)
Example exactly_100_MiB_is_accepted :
  snd (download_pdf
         (env_of (Returns (mkResponse 200 pdf_headers
                                      (Returns (zeros 104857600)))) 1)
         doc_url w0)
  = Ok (zeros 104857600).
Proof.
  pose proof (len_zeros 104857600 ltac:(lia)) as Hlen.
  revert Hlen. generalize (zeros 104857600). intros pdf_bytes Hlen.
  destruct (download_pdf_size_check
              (env_of (Returns (mkResponse 200 pdf_headers (Returns pdf_bytes))) 1)
              doc_url w0 _ pdf_bytes eq_refl eq_refl eq_refl eq_refl)
    as [_ [_ [Hok _]]].
  rewrite Hok; [reflexivity|]. rewrite Hlen. unfold MAX_PDF_SIZE. lia.
Qed.

Example one_byte_over_100_MiB_is_rejected :
  snd (download_pdf_try
         (env_of (Returns (mkResponse 200 pdf_headers
                                      (Returns (zeros 104857601)))) 1)
         doc_url w0)
  = Raise PayloadTooLarge.
Proof.
  pose proof (len_zeros 104857601 ltac:(lia)) as Hlen.
  revert Hlen. generalize (zeros 104857601). intros pdf_bytes Hlen.
  apply (download_pdf_size_check
           (env_of (Returns (mkResponse 200 pdf_headers (Returns pdf_bytes))) 1)
           doc_url w0 _ pdf_bytes eq_refl eq_refl eq_refl eq_refl).
  rewrite Hlen. unfold MAX_PDF_SIZE. lia.
Qed.

(** C7 (where the code departs from the claim).  For a response that has
    passed the status and content-type checks and whose body, read to the
    end, is longer than 104857600 bytes (100 MiB), the size check of
    [download_pdf] raises [PayloadTooLarge], the 400 "PDF file is too
    large.", after the read of the whole body, as the claim describes.  But
    the [except Exception] clause of the same function catches it:
    [download_pdf] fails with the 500 "Unexpected error occurred.", on no
    input with [PayloadTooLarge], and the endpoint answers that 500. *)
Theorem oversized_body_is_answered_500 env sched url w r pdf_bytes :
  session_get env url = Returns r ->
  status r = 200 ->
  indicates_pdf (content_type_of r) = true ->
  read r = Returns pdf_bytes ->
  len pdf_bytes > 104857600 ->
  download_pdf_try env url w
  = (emit EvRead (emit (EvGet url) w),
     Raise (HTTPException 400 "PDF file is too large."))
  /\ download_pdf env url w
     = (emit EvRead (emit (EvGet url) w),
        Raise (HTTPException 500 "Unexpected error occurred."))
  /\ (forall env' url' w',
        snd (download_pdf env' url' w') <> Raise PayloadTooLarge)
  /\ post_convert_pdf env sched url w
     = mkReply 500 (Detail "Unexpected error occurred.").
Proof.
  intros Hget Hst Hct Hread Hlen.
  pose proof (download_pdf_try_read env url w r Hget Hst Hct) as Htry.
  rewrite Hread in Htry.
  assert (Hgt : (len pdf_bytes >? MAX_PDF_SIZE) = true)
    by (apply Z.gtb_gt; unfold MAX_PDF_SIZE; lia).
  rewrite Hgt in Htry.
  pose proof (download_pdf_http_exception env url w _ _ _ Htry) as Hdown.
  split; [exact Htry|]. split; [exact Hdown|]. split.
  - intros env' url' w'. unfold download_pdf, try_except.
    destruct (download_pdf_try env' url' w') as [w1 [b|e]]; [discriminate|].
    destruct e as [sc d|[m| |m]|m]; discriminate.
  - unfold post_convert_pdf.
    now rewrite (convert_pdf_download_raises env url w sched _ _ Hdown).
Qed.

Lemma oversized_body_is_answered_500_witness :
  post_convert_pdf
    (env_of (Returns (mkResponse 200 pdf_headers (Returns (zeros 104857601))))
            1)
    [] doc_url w0
  = mkReply 500 (Detail "Unexpected error occurred.").
Proof.
  pose proof (len_zeros 104857601 ltac:(lia)) as Hlen.
  revert Hlen. generalize (zeros 104857601). intros pdf_bytes Hlen.
  apply (oversized_body_is_answered_500
           (env_of (Returns (mkResponse 200 pdf_headers (Returns pdf_bytes))) 1)
           [] doc_url w0
           (mkResponse 200 pdf_headers (Returns pdf_bytes)) pdf_bytes
           eq_refl eq_refl eq_refl eq_refl).
  rewrite Hlen. lia.
Defined.

(** The value of the first header named Content-Type, in whatever case the
    name is written, is the content type that line 77 reads. *)
Lemma headers_get_found (before after : list (string * string))
    (name value : string) :
  lower name = "content-type"%string ->
  no_content_type before ->
  headers_get (before ++ (name, value) :: after) "Content-Type" EmptyString
  = value.
Proof.
  intros Hname Hbefore.
  induction Hbefore as [|[k v] before Hk _ IH]; cbn [app headers_get].
  - change (lower "Content-Type") with "content-type"%string.
    now rewrite Hname, String.eqb_refl.
  - change (lower "Content-Type") with "content-type"%string.
    cbn [fst] in Hk. apply String.eqb_neq in Hk. now rewrite Hk.
Qed.

(** C10.  The content-type check is a substring test that ignores case.
    For a response with status 200 that carries a Content-Type header (the
    first header of that name, the name in any case), the content type
    checked is the value of that header: [download_pdf] goes on to read the
    body when the value has the letters p, d, f in a row, each in either
    case, anywhere in it, and raises [UnsupportedContentType] with that
    value otherwise; "application/x-pdf" and "text/pdf-like" pass.  With no
    Content-Type header the content type is the empty string, which is
    rejected. *)
Theorem content_type_check_is_substring_any_case env url w r :
  session_get env url = Returns r ->
  status r = 200 ->
  (forall before name value after,
     headers r = before ++ (name, value) :: after ->
     lower name = "content-type"%string ->
     no_content_type before ->
     content_type_of r = value
     /\ (contains_pdf_any_case value ->
         download_pdf_try env url w
         = (emit EvRead (emit (EvGet url) w),
            match read r with
            | Throws e => Raise (Library e)
            | Returns pdf_bytes =>
                if len pdf_bytes >? MAX_PDF_SIZE then Raise PayloadTooLarge
                else Ok pdf_bytes
            end))
     /\ (~ contains_pdf_any_case value ->
         download_pdf_try env url w
         = (emit (EvGet url) w, Raise (UnsupportedContentType value))
         /\ exists e, snd (download_pdf env url w) = Raise e))
  /\ (no_content_type (headers r) ->
      content_type_of r = EmptyString
      /\ ~ contains_pdf_any_case (content_type_of r)
      /\ download_pdf_try env url w
         = (emit (EvGet url) w, Raise (UnsupportedContentType EmptyString))
      /\ exists e, snd (download_pdf env url w) = Raise e)
  /\ (contains_pdf_any_case (content_type_of r) ->
      fst (download_pdf_try env url w) = emit EvRead (emit (EvGet url) w)
      /\ forall ct, snd (download_pdf_try env url w)
                    <> Raise (UnsupportedContentType ct))
  /\ (~ contains_pdf_any_case (content_type_of r) ->
      download_pdf_try env url w
      = (emit (EvGet url) w,
         Raise (UnsupportedContentType (content_type_of r))))
  /\ (contains_pdf_any_case "application/x-pdf"
      /\ contains_pdf_any_case "text/pdf-like"
      /\ contains_pdf_any_case "Application/PDF; charset=binary"
      /\ ~ contains_pdf_any_case "text/html")
  /\ indicates_pdf "application/x-pdf" = true
  /\ indicates_pdf "text/pdf-like" = true
  /\ indicates_pdf "Application/PDF; charset=binary" = true.
Proof.
  intros Hget Hst.
  assert (Haccept : indicates_pdf (content_type_of r) = true ->
            download_pdf_try env url w
            = (emit EvRead (emit (EvGet url) w),
               match read r with
               | Throws e => Raise (Library e)
               | Returns pdf_bytes =>
                   if len pdf_bytes >? MAX_PDF_SIZE then Raise PayloadTooLarge
                   else Ok pdf_bytes
               end))
    by (intros Hct; now apply download_pdf_try_read).
  assert (Hreject : ~ contains_pdf_any_case (content_type_of r) ->
            download_pdf_try env url w
            = (emit (EvGet url) w,
               Raise (UnsupportedContentType (content_type_of r)))).
  { intros Hno. apply download_pdf_try_content_type; try assumption.
    destruct (indicates_pdf (content_type_of r)) eqn:Hct; [|reflexivity].
    apply indicates_pdf_spec in Hct. contradiction. }
  assert (Hfails : ~ contains_pdf_any_case (content_type_of r) ->
            exists e, snd (download_pdf env url w) = Raise e).
  { intros Hno. eexists.
    now rewrite (download_pdf_http_exception env url w _ _ _ (Hreject Hno)). }
  split; [|split; [|split; [|split; [|split]]]].
  - intros before name value after Hhs Hname Hbefore.
    assert (Hct : content_type_of r = value).
    { unfold content_type_of. rewrite Hhs. now apply headers_get_found. }
    split; [exact Hct|]. rewrite <- Hct. split.
    + intros Hpdf. now apply Haccept, indicates_pdf_spec.
    + intros Hno. split; [now apply Hreject | now apply Hfails].
  - intros Hmiss.
    assert (Hct : content_type_of r = EmptyString).
    { unfold content_type_of. now apply headers_get_missing. }
    assert (Hno : ~ contains_pdf_any_case (content_type_of r)).
    { rewrite Hct, <- indicates_pdf_spec. discriminate. }
    split; [exact Hct|]. split; [exact Hno|]. split; [|now apply Hfails].
    rewrite <- Hct. now apply Hreject.
  - intros Hpdf. apply indicates_pdf_spec in Hpdf.
    rewrite (Haccept Hpdf). cbn [fst snd]. split; [reflexivity|]. intros ct.
    destruct (read r) as [pdf_bytes|e]; [|discriminate].
    destruct (len pdf_bytes >? MAX_PDF_SIZE); discriminate.
  - exact Hreject.
  - rewrite <- !indicates_pdf_spec. repeat split; try reflexivity.
    discriminate.
  - repeat split; reflexivity.
Qed.

Lemma content_type_check_is_substring_any_case_witness :
  download_pdf_try
    (env_of (Returns (mkResponse 200
                        [("Server", "nginx");
                         ("content-type", "application/x-pdf")]%string
                        (Returns [x25]))) 1) doc_url w0
  = (emit EvRead (emit (EvGet doc_url) w0), Ok [x25])
  /\ download_pdf_try
       (env_of (Returns (mkResponse 200
                           [("Content-Type", "text/pdf-like")]%string
                           (Returns [x25]))) 1) doc_url w0
     = (emit EvRead (emit (EvGet doc_url) w0), Ok [x25])
  /\ download_pdf_try
       (env_of (Returns (mkResponse 200
                           [("Content-Type", "text/html")]%string
                           (Returns [x25]))) 1) doc_url w0
     = (emit (EvGet doc_url) w0, Raise (UnsupportedContentType "text/html"))
  /\ download_pdf_try
       (env_of (Returns (mkResponse 200 [("Server", "nginx")]%string
                                    (Returns [x25]))) 1) doc_url w0
     = (emit (EvGet doc_url) w0, Raise (UnsupportedContentType EmptyString)).
Proof.
  split; [|split; [|split]].
  - destruct (content_type_check_is_substring_any_case
                (env_of (Returns (mkResponse 200
                                    [("Server", "nginx");
                                     ("content-type", "application/x-pdf")]%string
                                    (Returns [x25]))) 1)
                doc_url w0 _ eq_refl eq_refl)
      as (Hheader & _ & _ & _ & (Hxpdf & _) & _).
    destruct (Hheader [("Server", "nginx")]%string "content-type"%string
                      "application/x-pdf"%string [] eq_refl eq_refl)
      as (_ & Haccept & _).
    + repeat constructor; discriminate.
    + exact (Haccept Hxpdf).
  - destruct (content_type_check_is_substring_any_case
                (env_of (Returns (mkResponse 200
                                    [("Content-Type", "text/pdf-like")]%string
                                    (Returns [x25]))) 1)
                doc_url w0 _ eq_refl eq_refl)
      as (Hheader & _ & _ & _ & (_ & Hlike & _) & _).
    destruct (Hheader [] "Content-Type"%string "text/pdf-like"%string []
                      eq_refl eq_refl) as (_ & Haccept & _).
    + constructor.
    + exact (Haccept Hlike).
  - destruct (content_type_check_is_substring_any_case
                (env_of (Returns (mkResponse 200
                                    [("Content-Type", "text/html")]%string
                                    (Returns [x25]))) 1)
                doc_url w0 _ eq_refl eq_refl)
      as (Hheader & _ & _ & _ & (_ & _ & _ & Hhtml) & _).
    destruct (Hheader [] "Content-Type"%string "text/html"%string []
                      eq_refl eq_refl) as (_ & _ & Hrej).
    + constructor.
    + exact (proj1 (Hrej Hhtml)).
  - destruct (content_type_check_is_substring_any_case
                (env_of (Returns (mkResponse 200 [("Server", "nginx")]%string
                                             (Returns [x25]))) 1)
                doc_url w0 _ eq_refl eq_refl)
      as (_ & Hmissing & _).
    destruct Hmissing as (_ & _ & Hrej & _); [|exact Hrej].
    repeat constructor; discriminate.
Defined.

End SizeAndTypeClaims.

(** ** [convert_pdf_to_images] *)

Section Render.

Import Sample.

Context (env : Env).

(** The loop rasterizes the pages it is given, in the order given, and
    appends their images to the list. *)
Lemma render_pages_all (doc : Document) (page_nums : list nat) :
  forall (acc : list bytes) (w : World),
    (forall n, In n page_nums -> exists img, get_png doc n = Returns img) ->
    exists images,
      render_pages doc page_nums acc w
      = (mkWorld (events w ++ map EvRasterize page_nums) (blobs w),
         Ok (acc ++ images))
      /\ Forall2 (fun n img => get_png doc n = Returns img) page_nums images.
Proof.
  induction page_nums as [|n page_nums IH]; intros acc w Hall.
  - exists []. simpl. rewrite !app_nil_r. destruct w. now split.
  - destruct (Hall n (or_introl eq_refl)) as [img Himg].
    destruct (IH (acc ++ [img]) (emit (EvRasterize n) w)) as [images [Hrun Hfa]].
    { intros m Hm. apply Hall. now right. }
    exists (img :: images). split; [|now constructor].
    cbn [render_pages]. unfold bind, call. rewrite Himg. simpl.
    rewrite Hrun. simpl. now rewrite <- !app_assoc.
Qed.

Lemma Forall2_range_lookup {A} (P : nat -> A -> Prop) (n : nat) (l : list A) :
  Forall2 P (range n) l ->
  length l = n /\
  forall i, (i < n)%nat -> exists x, l !! i = Some x /\ P i x.
Proof.
  intros Hfa. pose proof (Forall2_length _ _ _ Hfa) as Hlen.
  unfold range in *. rewrite length_seq in Hlen. split; [now symmetry|].
  intros i Hi.
  destruct (lookup_lt_is_Some_2 l i ltac:(lia)) as [x Hx].
  exists x. split; [assumption|].
  assert (Hseq : seq 0 n !! i = Some i) by (apply lookup_seq; lia).
  exact (Forall2_lookup_lr _ _ _ _ _ _ Hfa Hseq Hx).
Qed.

Lemma convert_pdf_to_images_try_too_many pdf_bytes w doc :
  fitz_open env pdf_bytes = Returns doc ->
  (page_count doc > MAX_PAGE_COUNT)%nat ->
  convert_pdf_to_images_try env pdf_bytes w
  = (emit EvOpen w, Raise (TooManyPages (page_count doc))).
Proof.
  intros Hopen Hgt. unfold convert_pdf_to_images_try, bind, call.
  rewrite Hopen. cbn [result_of].
  destruct (Nat.ltb_spec MAX_PAGE_COUNT (page_count doc)); [reflexivity | lia].
Qed.

(** A failed conversion ends the request with the conversion's exception. *)
Lemma convert_pdf_render_raises sched url w w1 pdf_bytes w2 e :
  download_pdf env url w = (w1, Ok pdf_bytes) ->
  convert_pdf_to_images env pdf_bytes w1 = (w2, Raise e) ->
  convert_pdf env sched url w = (w2, Raise e).
Proof.
  intros Hd Hc. unfold convert_pdf, bind. now rewrite Hd, Hc.
Qed.

(** C2 (where the code departs from the claim).  For a document of more
    than 3000 pages the body of [convert_pdf_to_images] raises
    [TooManyPages], a 400, before any page is rasterized: the journal gains
    the opening of the document alone.  But the [except Exception] clause
    of the same function catches it, and the client-facing error is the 500
    "Error converting PDF to images.". *)
Theorem too_many_pages_is_answered_500 pdf_bytes w doc :
  fitz_open env pdf_bytes = Returns doc ->
  (page_count doc > 3000)%nat ->
  convert_pdf_to_images_try env pdf_bytes w
  = (emit EvOpen w, Raise (TooManyPages (page_count doc)))
  /\ convert_pdf_to_images env pdf_bytes w
     = (emit EvOpen w, Raise (HTTPException 500 "Error converting PDF to images."))
  /\ (forall sched url w0,
        download_pdf env url w0 = (w, Ok pdf_bytes) ->
        post_convert_pdf env sched url w0
        = mkReply 500 (Detail "Error converting PDF to images.")).
Proof.
  intros Hopen Hgt.
  pose proof (convert_pdf_to_images_try_too_many pdf_bytes w doc Hopen Hgt)
    as Htry.
  assert (Hc : convert_pdf_to_images env pdf_bytes w
               = (emit EvOpen w,
                  Raise (HTTPException 500 "Error converting PDF to images."))).
  { unfold convert_pdf_to_images, try_except. now rewrite Htry. }
  split; [exact Htry|]. split; [exact Hc|].
  intros sched url w0 Hd. unfold post_convert_pdf.
  now rewrite (convert_pdf_render_raises sched url w0 w pdf_bytes _ _ Hd Hc).
Qed.

(** C5.  For a document that opens, has at most 3000 pages and whose
    pages all rasterize, [convert_pdf_to_images] returns a list of exactly
    [page_count] images whose [i]-th element is the rasterization of page
    [i]; the pages are rasterized in index order. *)
Theorem render_returns_every_page_in_order pdf_bytes w doc :
  fitz_open env pdf_bytes = Returns doc ->
  (page_count doc <= 3000)%nat ->
  (forall n, (n < page_count doc)%nat -> exists img, get_png doc n = Returns img) ->
  exists images,
    snd (convert_pdf_to_images env pdf_bytes w) = Ok images
    /\ length images = page_count doc
    /\ (forall i, (i < page_count doc)%nat ->
          exists img, images !! i = Some img /\ get_png doc i = Returns img)
    /\ events (fst (convert_pdf_to_images env pdf_bytes w))
       = events w ++ EvOpen :: map EvRasterize (range (page_count doc)).
Proof.
  intros Hopen Hle Hpages.
  destruct (render_pages_all doc (range (page_count doc)) [] (emit EvOpen w))
    as [images [Hrun Hfa]].
  { intros n Hn. apply Hpages. apply in_seq in Hn. lia. }
  apply Forall2_range_lookup in Hfa as [Hlen Hnth].
  exists images.
  unfold convert_pdf_to_images, try_except, convert_pdf_to_images_try, bind, call.
  rewrite Hopen. cbn [result_of].
  destruct (Nat.ltb_spec MAX_PAGE_COUNT (page_count doc)) as [Hlt|_];
    [unfold MAX_PAGE_COUNT in Hlt; lia|].
  replace (Nat.min (page_count doc) MAX_PAGE_COUNT) with (page_count doc)
    by (unfold MAX_PAGE_COUNT; lia).
  rewrite Hrun. cbn [fst snd events emit app].
  repeat split; try assumption. now rewrite <- app_assoc.
Qed.

End Render.

Lemma too_many_pages_is_answered_500_witness :
  post_convert_pdf
    (Sample.env_of
       (Returns (mkResponse 200 Sample.pdf_headers (Returns [x25]))) 3001)
    [] Sample.doc_url Sample.w0
  = mkReply 500 (Detail "Error converting PDF to images.").
Proof.
  eapply (too_many_pages_is_answered_500 _ [x25] _
            (mkDocument 3001 (fun n => Returns (Sample.png n)))).
  - reflexivity.
  - simpl. lia.
  - reflexivity.
Defined.

Lemma render_returns_every_page_in_order_witness :
  exists images,
    snd (convert_pdf_to_images
           (Sample.env_of
              (Returns (mkResponse 200 Sample.pdf_headers (Returns [x25]))) 3)
           [x25] Sample.w0)
    = Ok images
    /\ length images = 3%nat
    /\ images !! 2%nat = Some (Sample.png 2).
Proof.
  destruct (render_returns_every_page_in_order
              (Sample.env_of
                 (Returns (mkResponse 200 Sample.pdf_headers (Returns [x25]))) 3)
              [x25] Sample.w0
              (mkDocument 3 (fun n => Returns (Sample.png n))))
    as [images [Hok [Hlen [Hnth _]]]].
  - reflexivity.
  - simpl. lia.
  - intros n _. now exists (Sample.png n).
  - exists images. split; [exact Hok|]. split; [exact Hlen|].
    destruct (Hnth 2%nat) as [img [Himg Hpng]]; [simpl; lia|].
    simpl in Hpng. congruence.
Defined.

(** ** [upload_image_to_azure_blob] *)

Section Upload.

Context (env : Env).

Lemma stateless_blind {A} (c : M A) : stateless c -> world_blind c.
Proof. intros [r Hr] w w'. now rewrite !Hr. Qed.

Lemma stateless_ret {A} (a : A) : stateless (ret a).
Proof. now exists (Ok a). Qed.

Lemma stateless_raise {A} (e : exn) : stateless (@raise A e).
Proof. now exists (Raise e). Qed.

Lemma stateless_local_call {A} (a : answer A) : stateless (local_call a).
Proof. now exists (result_of a). Qed.

Lemma stateless_bind {A B} (c : M A) (k : A -> M B) :
  stateless c -> (forall a, stateless (k a)) -> stateless (bind c k).
Proof.
  intros [r Hr] Hk. destruct r as [a|e].
  - destruct (Hk a) as [rb Hrb]. exists rb. intros w.
    unfold bind. now rewrite Hr, Hrb.
  - exists (Raise e). intros w. unfold bind. now rewrite Hr.
Qed.

Lemma blind_bind {A B} (c : M A) (k : A -> M B) :
  world_blind c -> (forall a, world_blind (k a)) -> world_blind (bind c k).
Proof.
  intros Hc Hk w w'. unfold bind. specialize (Hc w w').
  destruct (c w) as [w1 [a|e]], (c w') as [w1' [a'|e']];
    simpl in Hc; try discriminate; injection Hc as ->; [apply Hk | reflexivity].
Qed.

Lemma blind_try_except {A} (c : M A) (h : exn -> M A) :
  world_blind c -> (forall e, world_blind (h e)) -> world_blind (try_except c h).
Proof.
  intros Hc Hh w w'. unfold try_except. specialize (Hc w w').
  destruct (c w) as [w1 [a|e]], (c w') as [w1' [a'|e']];
    simpl in Hc; try discriminate; injection Hc as ->; [reflexivity | apply Hh].
Qed.

Lemma blind_upload_except {A} (e : exn) : world_blind (@upload_except A e).
Proof. now intros w w'. Qed.

Lemma parse_parts_stateless (parts : list string) :
  forall conn_dict, stateless (parse_parts parts conn_dict).
Proof.
  induction parts as [|part parts IH]; intros conn_dict; cbn [parse_parts].
  - apply stateless_ret.
  - destruct (split_once "=" part) as [[key value]|];
      [apply IH | apply stateless_raise].
Qed.

Lemma sign_blob_url_stateless filename container_name :
  stateless (sign_blob_url env filename container_name).
Proof.
  unfold sign_blob_url. apply stateless_bind.
  - apply parse_parts_stateless.
  - intros conn_params.
    destruct (falsy (conn_params !! "AccountName")
              || falsy (conn_params !! "AccountKey"));
      [apply stateless_raise|].
    apply stateless_bind; [apply stateless_local_call|].
    intros sas_token. apply stateless_ret.
Qed.

Lemma upload_begin_stateless : stateless (upload_begin env).
Proof.
  unfold upload_begin.
  destruct (falsy (AZURE_CONTAINER_NAME env)); [apply stateless_raise|].
  apply stateless_bind; [apply stateless_local_call|].
  intros _. apply stateless_ret.
Qed.

Lemma upload_begin_eq w :
  upload_begin env w
  = (w, if falsy (AZURE_CONTAINER_NAME env) then
          Raise (Exception
                   "Azure container name not found in environment variables.")
        else
          match get_container_client env
                  (default EmptyString (AZURE_CONTAINER_NAME env)) with
          | Returns _ => Ok (default EmptyString (AZURE_CONTAINER_NAME env))
          | Throws e => Raise (Library e)
          end).
Proof.
  unfold upload_begin. destruct (falsy (AZURE_CONTAINER_NAME env));
    [reflexivity|].
  unfold bind, local_call, ret.
  now destruct (get_container_client env _).
Qed.

(** Whatever [create_container] answers, the coroutine goes on. *)
Lemma upload_create_eq filename w :
  upload_create env filename w
  = (emit EvCreateContainer w, result_of (get_blob_client env filename)).
Proof.
  unfold upload_create, bind, try_except, call, local_call, ret.
  now destruct (create_container env filename).
Qed.

Lemma upload_create_blind filename : world_blind (upload_create env filename).
Proof. intros w w'. now rewrite !upload_create_eq. Qed.

Lemma blob_write_blind filename image_bytes :
  world_blind (blob_write env filename image_bytes).
Proof.
  intros w w'. unfold blob_write.
  now destruct (upload_blob env filename image_bytes).
Qed.

Lemma upload_finish_blind image_bytes filename container_name :
  world_blind (upload_finish env image_bytes filename container_name).
Proof.
  unfold upload_finish. apply blind_bind; [apply blob_write_blind|].
  intros _. apply stateless_blind, sign_blob_url_stateless.
Qed.

Lemma rest_blind c : world_blind (rest env c).
Proof.
  destruct c as [i f|i f cn|i f cn|r]; cbn [rest].
  - unfold upload_image_to_azure_blob.
    apply blind_try_except; [|apply blind_upload_except].
    apply blind_bind; [apply stateless_blind, upload_begin_stateless|].
    intros cn. apply blind_bind; [apply upload_create_blind|].
    intros _. apply upload_finish_blind.
  - apply blind_try_except; [|apply blind_upload_except].
    apply blind_bind; [apply upload_create_blind|].
    intros _. apply upload_finish_blind.
  - apply blind_try_except; [apply upload_finish_blind | apply blind_upload_except].
  - now intros w w'.
Qed.

Lemma eventual_rest c w : snd (rest env c w) = eventual env c.
Proof. apply rest_blind. Qed.

(** One resumption and then the rest is the whole rest. *)
Lemma rest_resume c w :
  rest env c w = rest env (snd (resume env c w)) (fst (resume env c w)).
Proof.
  destruct c as [i f|i f cn|i f cn|r]; cbn [rest resume]; [| | |reflexivity];
    unfold upload_image_to_azure_blob, advance, try_except, bind.
  - now destruct (upload_begin env w) as [w1 [cn|e]].
  - now destruct (upload_create env f w) as [w1 [[]|e]].
  - now destruct (upload_finish env i f cn w) as [w1 [u|e]].
Qed.

Lemma resume_eventual c w :
  eventual env (snd (resume env c w)) = eventual env c.
Proof.
  rewrite <- (eventual_rest c w), rest_resume. symmetry. apply eventual_rest.
Qed.

Lemma resume_stage c w :
  (stage c < 3)%nat -> (stage c < stage (snd (resume env c w)))%nat.
Proof.
  destruct c as [i f|i f cn|i f cn|r]; cbn [resume stage]; [| | |lia];
    intros _; unfold advance.
  - destruct (upload_begin env w) as [w1 [cn|e]]; simpl; lia.
  - destruct (upload_create env f w) as [w1 [[]|e]]; simpl; lia.
  - destruct (upload_finish env i f cn w) as [w1 [u|e]]; simpl; lia.
Qed.

(** A resumed coroutine stays with its upload until it returns, and what
    it raises is the 500 of the [except] clause. *)
Lemma resume_task_of c w t :
  task_of c = Some t ->
  task_of (snd (resume env c w)) = Some t
  \/ (exists u, snd (resume env c w) = Returned (Ok u)
                /\ blobs (fst (resume env c w)) !! snd t = Some (fst t))
  \/ snd (resume env c w) = Returned (Raise UploadFailed).
Proof.
  destruct c as [i f|i f cn|i f cn|r]; cbn [resume task_of]; [| | |discriminate];
    intros [= <-]; unfold advance.
  - destruct (upload_begin env w) as [w1 [cn|e]]; simpl; auto.
  - destruct (upload_create env f w) as [w1 [[]|e]]; simpl; auto.
  - unfold upload_finish, bind, blob_write.
    destruct (upload_blob env f i); simpl; [|auto].
    destruct (sign_blob_url_stateless f cn) as [r ->].
    destruct r as [u|e]; simpl; [|auto].
    right. left. exists u. split; [reflexivity|]. apply lookup_insert_eq.
Qed.

(** A resumption writes at most the blob of its own upload. *)
Lemma resume_blobs c w t name :
  task_of c = Some t -> name <> snd t ->
  blobs (fst (resume env c w)) !! name = blobs w !! name.
Proof.
  destruct c as [i f|i f cn|i f cn|r]; cbn [resume task_of]; [| | |discriminate];
    intros [= <-] Hne; unfold advance.
  - destruct upload_begin_stateless as [r ->]. now destruct r.
  - rewrite upload_create_eq. now destruct (get_blob_client env f) as [[]|e].
  - unfold upload_finish, bind, blob_write.
    destruct (upload_blob env f i); simpl; [|reflexivity].
    destruct (sign_blob_url_stateless f cn) as [r ->].
    destruct r as [u|e]; simpl; now rewrite lookup_insert_ne.
Qed.

End Upload.

Section ContainerCreation.

Import Sample.

Lemma upload_ignores_create_container env f image_bytes filename w :
  upload_image_to_azure_blob (with_create_container env f) image_bytes filename w
  = upload_image_to_azure_blob env image_bytes filename w.
Proof.
  unfold upload_image_to_azure_blob, try_except, bind.
  change (upload_begin (with_create_container env f)) with (upload_begin env).
  destruct (upload_begin env w) as [w1 [cn|e]]; [|reflexivity].
  rewrite !upload_create_eq.
  change (get_blob_client (with_create_container env f)) with (get_blob_client env).
  destruct (get_blob_client env filename) as [[]|e]; reflexivity.
Qed.

Lemma upload_setup_fails env image_bytes filename w :
  setup_fails env ->
  upload_image_to_azure_blob env image_bytes filename w = (w, Raise UploadFailed).
Proof.
  intros Hfail.
  unfold upload_image_to_azure_blob, try_except, bind, upload_begin.
  destruct Hfail as [Hname | [e He]].
  - now rewrite Hname.
  - destruct (falsy (AZURE_CONTAINER_NAME env)); [reflexivity|].
    unfold local_call. now rewrite He.
Qed.

(** C8 as stated fails: container creation fails for a reason other than
    "already exists", and the upload does not fail: the blob is written and
    its signed URL returned. *)
Lemma creation_error_and_upload_succeeds :
  create_container env_flaky "page1.png"
  = Throws (LibraryError "ServiceRequestError: timed out")
  /\ snd (upload_image_to_azure_blob env_flaky (png 0) "page1.png" w0)
     = Ok "https://acct.blob.core.windows.net/pngs/page1.png?sig=page1.png"%string
  /\ blobs (fst (upload_image_to_azure_blob env_flaky (png 0) "page1.png" w0))
       !! "page1.png"%string
     = Some (png 0).
Proof. split; [reflexivity|]. split; vm_compute; reflexivity. Qed.

(** C8 (amended).  Whatever [create_container] raises, "already exists" or
    any other error, is logged and dropped: the upload goes on exactly as
    if the container had been created.  The upload fails at set-up, with
    the 500 "Error uploading images.", when the container name is not
    configured or [get_container_client] raises. *)
Theorem container_creation_failure_is_ignored env image_bytes filename w e :
  create_container env filename = Throws e ->
  upload_image_to_azure_blob env image_bytes filename w
  = upload_image_to_azure_blob
      (with_create_container env (fun _ => Returns tt)) image_bytes filename w
  /\ (setup_fails env ->
      upload_image_to_azure_blob env image_bytes filename w
      = (w, Raise (HTTPException 500 "Error uploading images."))).
Proof.
  intros _. split.
  - symmetry. apply upload_ignores_create_container.
  - apply upload_setup_fails.
Qed.

Lemma container_creation_failure_is_ignored_witness :
  upload_image_to_azure_blob env_flaky (png 0) "page1.png" w0
  = upload_image_to_azure_blob
      (with_create_container env_flaky (fun _ => Returns tt))
      (png 0) "page1.png" w0.
Proof.
  apply (container_creation_failure_is_ignored env_flaky (png 0) "page1.png" w0
           (LibraryError "ServiceRequestError: timed out")).
  reflexivity.
Defined.

End ContainerCreation.

(** ** [asyncio.gather] *)

Section GatherSteps.

Context (env : Env).

Lemma gather_step_idle k g w :
  coroutines g !! k = None \/ returned_at g k ->
  gather_step env k g w = (w, g).
Proof.
  unfold gather_step. intros [-> | [r ->]]; reflexivity.
Qed.

Lemma gather_step_resume k g w c :
  coroutines g !! k = Some c ->
  (stage c < 3)%nat ->
  gather_step env k g w
  = (fst (resume env c w),
     mkGather (<[k := snd (resume env c w)]> (coroutines g))
              (note_exception (first_exception g) (snd (resume env c w)))).
Proof.
  intros Hk Hst. unfold gather_step. rewrite Hk.
  destruct (resume env c w) as [w' c'].
  destruct c; cbn [stage] in Hst; [reflexivity..|lia].
Qed.

(** Either of the two cases of a step. *)
Lemma gather_step_cases k g w :
  gather_step env k g w = (w, g)
  \/ exists c, coroutines g !! k = Some c /\ (stage c < 3)%nat
               /\ gather_step env k g w
                  = (fst (resume env c w),
                     mkGather (<[k := snd (resume env c w)]> (coroutines g))
                              (note_exception (first_exception g)
                                              (snd (resume env c w)))).
Proof.
  destruct (coroutines g !! k) as [c|] eqn:Hk.
  - destruct (lt_dec (stage c) 3) as [Hst|Hst].
    + right. exists c. auto using gather_step_resume.
    + left. apply gather_step_idle. right.
      destruct c; cbn [stage] in Hst; try lia. now exists r.
  - left. apply gather_step_idle. now left.
Qed.

Lemma gather_step_length k g w :
  length (coroutines (snd (gather_step env k g w))) = length (coroutines g).
Proof.
  destruct (gather_step_cases k g w) as [-> | [c [_ [_ ->]]]]; [reflexivity|].
  apply length_insert.
Qed.

Lemma gather_step_keeps_returned k j g w :
  returned_at g j -> returned_at (snd (gather_step env k g w)) j.
Proof.
  intros [r Hr].
  destruct (gather_step_cases k g w) as [-> | [c [Hk [Hst ->]]]];
    [now exists r|].
  exists r. cbn [snd coroutines]. rewrite list_lookup_insert_ne; [assumption|].
  intros ->. rewrite Hk in Hr. injection Hr as ->. cbn [stage] in Hst. lia.
Qed.

Lemma gather_run_app l1 l2 g w :
  gather_run env (l1 ++ l2) g w
  = gather_run env l2 (snd (gather_run env l1 g w)) (fst (gather_run env l1 g w)).
Proof.
  revert g w. induction l1 as [|k l1 IH]; intros g w; [reflexivity|].
  cbn [app gather_run]. destruct (gather_step env k g w) as [w' g']. apply IH.
Qed.

Lemma gather_run_length sched g w :
  length (coroutines (snd (gather_run env sched g w))) = length (coroutines g).
Proof.
  revert g w. induction sched as [|k sched IH]; intros g w; [reflexivity|].
  cbn [gather_run]. pose proof (gather_step_length k g w) as Hlen.
  destruct (gather_step env k g w) as [w' g']. rewrite IH. exact Hlen.
Qed.

Lemma gather_run_keeps_returned sched j g w :
  returned_at g j -> returned_at (snd (gather_run env sched g w)) j.
Proof.
  revert g w. induction sched as [|k sched IH]; intros g w Hr; [assumption|].
  cbn [gather_run]. pose proof (gather_step_keeps_returned k j g w Hr) as Hr'.
  destruct (gather_step env k g w) as [w' g']. now apply IH.
Qed.

(** A step at [k] takes the coroutine at [k] one stage further. *)
Lemma gather_step_stage k g w c :
  coroutines g !! k = Some c ->
  exists c', coroutines (snd (gather_step env k g w)) !! k = Some c'
             /\ (Nat.min 3 (S (stage c)) <= stage c')%nat.
Proof.
  intros Hk.
  destruct (gather_step_cases k g w) as [Hidle | [c0 [Hk0 [Hst Hstep]]]].
  - (* idle: the coroutine had returned *)
    rewrite Hidle. exists c. split; [assumption|].
    destruct (lt_dec (stage c) 3) as [Hlt|Hge]; [|lia].
    rewrite (gather_step_resume k g w c Hk Hlt) in Hidle.
    injection Hidle as _ Hg.
    apply (f_equal (fun g => coroutines g !! k)) in Hg. cbn [coroutines] in Hg.
    rewrite list_lookup_insert_eq in Hg by (eapply lookup_lt_Some; eassumption).
    rewrite Hk in Hg. injection Hg as Hc.
    pose proof (resume_stage env c w Hlt) as Hgrow. rewrite Hc in Hgrow. lia.
  - rewrite Hk in Hk0. injection Hk0 as <-. rewrite Hstep.
    exists (snd (resume env c w)). cbn [snd coroutines]. split.
    + apply list_lookup_insert_eq. eapply lookup_lt_Some; eassumption.
    + pose proof (resume_stage env c w Hst). lia.
Qed.

Lemma three_steps_return k g w :
  (k < length (coroutines g))%nat ->
  returned_at (snd (gather_run env [k; k; k] g w)) k.
Proof.
  intros Hk. destruct (lookup_lt_is_Some_2 _ _ Hk) as [c0 H0].
  cbn [gather_run].
  destruct (gather_step_stage k g w c0 H0) as [c1 [H1 Hs1]].
  destruct (gather_step env k g w) as [w1 g1]. cbn [snd] in H1.
  destruct (gather_step_stage k g1 w1 c1 H1) as [c2 [H2 Hs2]].
  destruct (gather_step env k g1 w1) as [w2 g2]. cbn [snd] in H2.
  destruct (gather_step_stage k g2 w2 c2 H2) as [c3 [H3 Hs3]].
  destruct (gather_step env k g2 w2) as [w3 g3]. cbn [snd] in H3 |- *.
  destruct c3 as [| | |r]; cbn [stage] in Hs3; try lia. now exists r.
Qed.

(** After [drain], every coroutine has returned. *)
Lemma drain_returns m :
  forall a g w,
    (forall j, (j < a)%nat -> returned_at g j) ->
    (a + m <= length (coroutines g))%nat ->
    forall j, (j < a + m)%nat ->
      returned_at
        (snd (gather_run env (flat_map (fun k => [k; k; k]) (seq a m)) g w)) j.
Proof.
  induction m as [|m IH]; intros a g w Hbelow Hlen j Hj.
  - apply Hbelow. lia.
  - cbn [seq flat_map]. rewrite gather_run_app.
    apply IH.
    + intros i Hi. destruct (Nat.eq_dec i a) as [->|Hne].
      * apply three_steps_return. lia.
      * apply gather_run_keeps_returned, Hbelow. lia.
    + rewrite gather_run_length. lia.
    + lia.
Qed.

End GatherSteps.

(** The values of coroutines that have all returned one. *)
Lemma omap_returned_value {T} (P : T -> string -> Prop) ts cs :
  Forall2 (fun t c => exists u, c = Returned (Ok u) /\ P t u) ts cs ->
  Forall2 P ts (omap returned_value cs).
Proof.
  induction 1 as [|t c ts cs [u [-> Hu]] _ IH]; [constructor|].
  cbn [omap list_omap returned_value]. now constructor.
Qed.

Section GatherInvariant.

Context (env : Env) (tasks : list (bytes * string)).
Hypothesis tasks_distinct : distinct_names tasks.

Lemma gather_inv_init w :
  gather_inv env tasks
    (mkGather (map (fun t => NotStarted (fst t) (snd t)) tasks) None) w.
Proof.
  change (map (fun t => NotStarted (fst t) (snd t)) tasks)
    with ((fun t : bytes * string => NotStarted (fst t) (snd t)) <$> tasks).
  split; [|split]; cbn [coroutines first_exception].
  - apply length_fmap.
  - intros k c t Hc Ht. rewrite list_lookup_fmap, Ht in Hc.
    injection Hc as <-. split; [reflexivity|]. left. now destruct t.
  - discriminate.
Qed.

Lemma gather_inv_step k g w :
  gather_inv env tasks g w ->
  gather_inv env tasks (snd (gather_step env k g w))
                       (fst (gather_step env k g w)).
Proof.
  intros (Hlen & Hco & Hfirst).
  destruct (gather_step_cases env k g w) as [-> | [c [Hk [Hst ->]]]];
    [now split|].
  cbn [fst snd].
  assert (Hkt : exists t, tasks !! k = Some t).
  { apply lookup_lt_is_Some_2. rewrite <- Hlen.
    eapply lookup_lt_Some; eassumption. }
  destruct Hkt as [t Ht].
  destruct (Hco k c t Hk Ht) as [Hev Hc].
  assert (Htask : task_of c = Some t).
  { destruct Hc as [Hc | [[u [-> _]] | [-> _]]]; [assumption|..];
      cbn [stage] in Hst; lia. }
  pose proof (resume_task_of env c w t Htask) as Hres.
  assert (Hfirst' :
            forall e, note_exception (first_exception g) (snd (resume env c w))
                      = Some e -> e = UploadFailed).
  { intros e He. destruct (first_exception g) as [e0|] eqn:Hfe.
    - cbn [note_exception] in He. injection He as <-.
      now destruct (Hfirst e0 eq_refl).
    - destruct Hres as [Hres | [[u [Hres _]] | Hres]].
      + destruct (snd (resume env c w)); try discriminate.
      + rewrite Hres in He. discriminate.
      + rewrite Hres in He. now injection He as <-. }
  split; [|split]; cbn [coroutines first_exception].
  - now rewrite length_insert.
  - intros j cj tj Hj Htj. destruct (Nat.eq_dec j k) as [->|Hne].
    + rewrite list_lookup_insert_eq in Hj
        by (eapply lookup_lt_Some; eassumption).
      injection Hj as <-. rewrite Ht in Htj. injection Htj as <-.
      split; [now rewrite resume_eventual|].
      destruct Hres as [Hres | [Hres | Hres]]; [now left | now right; left |].
      right. right. split; [assumption|].
      rewrite Hres. destruct (first_exception g) as [e0|] eqn:Hfe;
        [|reflexivity].
      cbn [note_exception]. now destruct (Hfirst e0 eq_refl) as [-> _].
    + rewrite list_lookup_insert_ne in Hj by congruence.
      destruct (Hco j cj tj Hj Htj) as [Hevj Hcj]. split; [assumption|].
      destruct Hcj as [Hcj | [[u [-> Hblob]] | [-> Hfe]]].
      * now left.
      * right. left. exists u. split; [reflexivity|].
        rewrite (resume_blobs env c w t (snd tj) Htask); [assumption|].
        intros Heq. apply Hne. eapply tasks_distinct; eassumption.
      * right. right. split; [reflexivity|]. rewrite Hfe.
        now destruct (snd (resume env c w)) as [| | |[|]].
  - intros e He. split; [now apply Hfirst'|].
    destruct (first_exception g) as [e0|] eqn:Hfe.
    + destruct (Hfirst e0 eq_refl) as [_ [j Hj]]. exists j.
      rewrite list_lookup_insert_ne; [assumption|].
      intros ->. rewrite Hk in Hj. injection Hj as ->. cbn [stage] in Hst. lia.
    + exists k.
      rewrite list_lookup_insert_eq by (eapply lookup_lt_Some; eassumption).
      destruct Hres as [Hres | [[u [Hres _]] | Hres]].
      * destruct (snd (resume env c w)); try discriminate.
      * rewrite Hres in He. discriminate.
      * now rewrite Hres.
Qed.

Lemma gather_inv_run sched :
  forall g w,
    gather_inv env tasks g w ->
    gather_inv env tasks (snd (gather_run env sched g w))
                         (fst (gather_run env sched g w)).
Proof.
  induction sched as [|k sched IH]; intros g w Hinv; [assumption|].
  cbn [gather_run]. pose proof (gather_inv_step k g w Hinv) as Hstep.
  destruct (gather_step env k g w) as [w' g']. now apply IH.
Qed.

(** Once every coroutine has returned, the invariant is the postcondition. *)
Lemma gather_inv_post g w :
  gather_inv env tasks g w ->
  (forall j, (j < length tasks)%nat -> returned_at g j) ->
  gather_post env tasks
    (w, match first_exception g with
        | Some e => Raise e
        | None => Ok (omap returned_value (coroutines g))
        end).
Proof.
  intros (Hlen & Hco & Hfirst) Hall. unfold gather_post. cbn [fst snd].
  destruct (first_exception g) as [e|] eqn:Hfe.
  - destruct (Hfirst e eq_refl) as [-> [k Hk]]. split; [reflexivity|].
    assert (Hkt : exists t, tasks !! k = Some t).
    { apply lookup_lt_is_Some_2. rewrite <- Hlen.
      eapply lookup_lt_Some; eassumption. }
    destruct Hkt as [t Ht]. exists t. split.
    + apply list_elem_of_In. eapply list_elem_of_lookup_2; eassumption.
    + now destruct (Hco k _ t Hk Ht) as [<- _].
  - assert (Hfa : Forall2 (fun t c => exists u,
                             c = Returned (Ok u)
                             /\ upload_result env t = Ok u
                             /\ blobs w !! snd t = Some (fst t))
                          tasks (coroutines g)).
    { apply Forall2_same_length_lookup_2; [now symmetry|].
      intros k t c Ht Hc. destruct (Hco k c t Hc Ht) as [Hev Hcase].
      destruct Hcase as [Htask | [[u [-> Hblob]] | [_ Habs]]].
      - destruct (Hall k) as [r Hr]; [eapply lookup_lt_Some; eassumption|].
        rewrite Hc in Hr. injection Hr as ->. discriminate.
      - exists u. now rewrite <- Hev.
      - discriminate. }
    now apply omap_returned_value in Hfa.
Qed.

(** What [gather] leaves, whatever the schedule. *)
Lemma gather_spec sched w :
  gather_post env tasks (gather env sched tasks w).
Proof.
  unfold gather.
  pose proof (gather_inv_run (sched ++ drain (length tasks)) _ w
                (gather_inv_init w)) as Hinv.
  assert (Hall : forall j, (j < length tasks)%nat ->
            returned_at
              (snd (gather_run env (sched ++ drain (length tasks))
                      (mkGather (map (fun t => NotStarted (fst t) (snd t)) tasks)
                                None) w)) j).
  { intros j Hj. rewrite gather_run_app. unfold drain, range.
    apply (drain_returns env (length tasks) 0).
    - intros i Hi. lia.
    - rewrite gather_run_length. cbn [coroutines]. rewrite length_map. lia.
    - lia. }
  destruct (gather_run env (sched ++ drain (length tasks)) _ w) as [w' g].
  now apply gather_inv_post.
Qed.

End GatherInvariant.

(** ** The names of the blobs *)

Section Names.

Lemma append_length (s t : string) :
  String.length (s +:+ t) = (String.length s + String.length t)%nat.
Proof.
  induction s as [|c s IH]; [reflexivity|].
  rewrite append_cons. cbn [String.length]. now rewrite IH.
Qed.

Lemma append_inj_l (s1 s2 t : string) : s1 +:+ t = s2 +:+ t -> s1 = s2.
Proof.
  revert s2. induction s1 as [|c s1 IH]; intros [|c' s2] Heq.
  - reflexivity.
  - apply (f_equal String.length) in Heq.
    rewrite append_nil, append_length in Heq. cbn [String.length] in Heq. lia.
  - apply (f_equal String.length) in Heq.
    rewrite append_nil, append_length in Heq. cbn [String.length] in Heq. lia.
  - rewrite !append_cons in Heq. injection Heq as -> Heq.
    now rewrite (IH s2 Heq).
Qed.

(** [Z.to_int] yields normal forms, which the printer does not confuse. *)
Lemma to_int_norm (z : Z) : Decimal.norm (Z.to_int z) = Z.to_int z.
Proof. now rewrite <- DecimalZ.to_of, DecimalZ.of_to. Qed.

Lemma norm_not_nil (d : Decimal.signed_int) :
  Decimal.norm d <> Decimal.Pos Decimal.Nil
  /\ Decimal.norm d <> Decimal.Neg Decimal.Nil.
Proof.
  destruct d as [u|u]; cbn [Decimal.norm].
  - split; [|discriminate]. intros [= Hu]. now apply DecimalFacts.unorm_nonnil in Hu.
  - destruct (Decimal.nzhead u); split; discriminate.
Qed.

Lemma str_inj (a b : Z) : str a = str b -> a = b.
Proof.
  unfold str. intros Heq. apply DecimalZ.to_int_inj.
  apply (f_equal NilZero.int_of_string) in Heq.
  rewrite !NilZero.isi in Heq;
    try (rewrite <- to_int_norm; apply norm_not_nil).
  now injection Heq.
Qed.

Lemma page_filename_inj (i j : nat) : page_filename i = page_filename j -> i = j.
Proof.
  unfold page_filename. intros Heq.
  rewrite !append_cons, !append_nil in Heq. injection Heq as Heq.
  apply append_inj_l, str_inj in Heq. lia.
Qed.

Lemma upload_tasks_of_lookup (image_bytes_list : list bytes) (idx : nat) :
  upload_tasks_of image_bytes_list !! idx
  = (fun image_bytes => (image_bytes, page_filename idx))
      <$> image_bytes_list !! idx.
Proof. unfold upload_tasks_of. apply list_lookup_imap. Qed.

Lemma upload_tasks_distinct (image_bytes_list : list bytes) :
  distinct_names (upload_tasks_of image_bytes_list).
Proof.
  intros j k tj tk Hj Hk Heq. rewrite upload_tasks_of_lookup in Hj, Hk.
  destruct (image_bytes_list !! j); [|discriminate].
  destruct (image_bytes_list !! k); [|discriminate].
  cbn in Hj, Hk. injection Hj as <-. injection Hk as <-.
  now apply page_filename_inj.
Qed.

End Names.

(** ** The endpoint *)

Section Endpoint.

Context (env : Env).

(** A signed URL is the URL of the blob of that name, a question mark, and
    a token minted for that name. *)
Lemma sign_blob_url_ok filename container_name w w' u :
  sign_blob_url env filename container_name w = (w', Ok u) ->
  exists account_name account_key sas_token,
    generate_blob_sas env account_name container_name filename account_key
    = Returns sas_token
    /\ u = blob_client_url env container_name filename +:+ "?" +:+ sas_token.
Proof.
  unfold sign_blob_url, bind.
  destruct (parse_connection_string (AZURE_STORAGE_CONNECTION_STRING env) w)
    as [w1 [conn_params|e]]; [|discriminate].
  destruct (falsy (conn_params !! "AccountName")
            || falsy (conn_params !! "AccountKey")); [discriminate|].
  unfold local_call, ret.
  destruct (generate_blob_sas env _ container_name filename _)
    as [sas_token|e] eqn:Hsas; cbn [result_of]; [|discriminate].
  intros [= _ <-]. eauto.
Qed.

Lemma upload_result_url t u :
  upload_result env t = Ok u ->
  exists container_name account_name account_key sas_token,
    AZURE_CONTAINER_NAME env = Some container_name
    /\ generate_blob_sas env account_name container_name (snd t) account_key
       = Returns sas_token
    /\ u = blob_client_url env container_name (snd t) +:+ "?" +:+ sas_token.
Proof.
  unfold upload_result, eventual. cbn [rest].
  unfold upload_image_to_azure_blob, try_except. unfold bind at 1.
  rewrite upload_begin_eq.
  destruct (falsy (AZURE_CONTAINER_NAME env)) eqn:Hfalsy; [discriminate|].
  destruct (AZURE_CONTAINER_NAME env) as [container_name|]; [|discriminate].
  change (default EmptyString (Some container_name)) with container_name.
  destruct (get_container_client env container_name) as [[]|e];
    [|discriminate].
  unfold bind at 1. rewrite upload_create_eq.
  destruct (get_blob_client env (snd t)) as [[]|e]; cbn [result_of];
    [|discriminate].
  unfold upload_finish, bind, blob_write.
  destruct (upload_blob env (snd t) (fst t)); [|discriminate].
  destruct (sign_blob_url env (snd t) container_name _) as [w' [u'|e]] eqn:Hsign;
    [|discriminate].
  intros [= <-].
  destruct (sign_blob_url_ok _ _ _ _ _ Hsign) as (an & ak & sas & Hsas & ->).
  exists container_name, an, ak, sas. auto.
Qed.

(** Two outcomes of [gather] over the same uploads agree. *)
Lemma gather_post_agree tasks out1 out2 :
  gather_post env tasks out1 -> gather_post env tasks out2 ->
  snd out1 = snd out2.
Proof.
  unfold gather_post.
  destruct out1 as [w1 [urls1|e1]], out2 as [w2 [urls2|e2]]; cbn [fst snd].
  - intros H1 H2. f_equal. revert urls2 H2.
    induction H1 as [|t u ts us [Hu _] _ IH]; intros urls2 H2;
      inversion H2 as [|t' u' ts' us' [Hu' _] Hrest]; subst; [reflexivity|].
    rewrite Hu in Hu'. injection Hu' as <-. f_equal. now apply IH.
  - intros H1 [_ [t [Hin Ht]]]. exfalso.
    apply list_elem_of_In, list_elem_of_lookup in Hin as [k Hk].
    destruct (Forall2_lookup_l _ _ _ _ _ H1 Hk) as [u [_ [Hu _]]]. congruence.
  - intros [_ [t [Hin Ht]]] H2. exfalso.
    apply list_elem_of_In, list_elem_of_lookup in Hin as [k Hk].
    destruct (Forall2_lookup_l _ _ _ _ _ H2 Hk) as [u [_ [Hu _]]]. congruence.
  - intros [-> _] [-> _]. reflexivity.
Qed.

(** The result of [gather] does not depend on the schedule, nor on the
    world it starts in. *)
Lemma gather_schedule_independent tasks sched sched' w w' :
  distinct_names tasks ->
  snd (gather env sched tasks w) = snd (gather env sched' tasks w').
Proof.
  intros Hd. eapply gather_post_agree; apply gather_spec; assumption.
Qed.

(** [gather] over no coroutine returns the empty list at once. *)
Lemma gather_nil sched w : gather env sched [] w = (w, Ok []).
Proof.
  unfold gather. cbn [map length drain range seq flat_map].
  rewrite app_nil_r.
  assert (Hrun : forall g, coroutines g = [] -> forall w0,
            gather_run env sched g w0 = (w0, g)).
  { induction sched as [|k sched' IH]; intros g Hg w0; [reflexivity|].
    cbn [gather_run]. rewrite gather_step_idle; [now apply IH|].
    left. now rewrite Hg. }
  now rewrite Hrun.
Qed.

(** A successful request, taken apart. *)
Lemma convert_pdf_ok sched url w w' image_urls :
  convert_pdf env sched url w = (w', Ok image_urls) ->
  exists pdf_bytes w1 image_bytes_list w2,
    download_pdf env url w = (w1, Ok pdf_bytes)
    /\ convert_pdf_to_images env pdf_bytes w1 = (w2, Ok image_bytes_list)
    /\ gather env sched (upload_tasks_of image_bytes_list) w2
       = (w', Ok image_urls)
    /\ image_urls <> [].
Proof.
  unfold convert_pdf, bind.
  destruct (download_pdf env url w) as [w1 [pdf_bytes|e]] eqn:Hd;
    [|discriminate].
  destruct (convert_pdf_to_images env pdf_bytes w1)
    as [w2 [image_bytes_list|e]] eqn:Hc; [|discriminate].
  destruct (gather env sched (upload_tasks_of image_bytes_list) w2)
    as [w3 [urls|e]] eqn:Hg; [|discriminate].
  destruct urls as [|u urls]; [discriminate|].
  intros [= <- <-]. exists pdf_bytes, w1, image_bytes_list, w2.
  repeat split; [assumption.. | discriminate].
Qed.

End Endpoint.

Section EndpointClaims.

Import Sample.

(** C6.  When a conversion succeeds, the list of URLs it returns has one
    URL for each page image, in page order, whatever the order in which the
    uploads complete: any other schedule returns the same list.  The URL
    at position [i] (from 0) is the URL of the blob named
    [page<i+1>.png] followed by its token, and the store holds the image of
    page [i] under that name. *)
Theorem image_urls_are_in_page_order env sched url w w' image_urls :
  convert_pdf env sched url w = (w', Ok image_urls) ->
  (forall sched', snd (convert_pdf env sched' url w) = Ok image_urls)
  /\ exists pdf_bytes w1 image_bytes_list w2,
       download_pdf env url w = (w1, Ok pdf_bytes)
       /\ convert_pdf_to_images env pdf_bytes w1 = (w2, Ok image_bytes_list)
       /\ length image_urls = length image_bytes_list
       /\ forall i image_bytes,
            image_bytes_list !! i = Some image_bytes ->
            exists container_name sas_token,
              image_urls !! i
              = Some (blob_client_url env container_name
                        ("page" +:+ str (Z.of_nat (i + 1)) +:+ ".png")
                      +:+ "?" +:+ sas_token)
              /\ blobs w' !! ("page" +:+ str (Z.of_nat (i + 1)) +:+ ".png")
                 = Some image_bytes.
Proof.
  intros Hok.
  destruct (convert_pdf_ok env sched url w w' image_urls Hok)
    as (pdf_bytes & w1 & images & w2 & Hd & Hc & Hg & Hne).
  pose proof (gather_spec env _ (upload_tasks_distinct images) sched w2)
    as Hpost.
  rewrite Hg in Hpost. unfold gather_post in Hpost. cbn [fst snd] in Hpost.
  split.
  - intros sched'. unfold convert_pdf, bind. rewrite Hd, Hc.
    pose proof (gather_schedule_independent env _ sched' sched w2 w2
                  (upload_tasks_distinct images)) as Hind.
    rewrite Hg in Hind. cbn [snd] in Hind.
    destruct (gather env sched' (upload_tasks_of images) w2) as [w3 r].
    cbn [snd] in Hind. subst r. now destruct image_urls.
  - exists pdf_bytes, w1, images, w2.
    split; [assumption|]. split; [assumption|]. split.
    + apply Forall2_length in Hpost. unfold upload_tasks_of in Hpost.
      now rewrite length_imap in Hpost.
    + intros i image_bytes Hi.
      assert (Ht : upload_tasks_of images !! i
                   = Some (image_bytes, page_filename i)).
      { rewrite upload_tasks_of_lookup, Hi. reflexivity. }
      destruct (Forall2_lookup_l _ _ _ _ _ Hpost Ht) as [u [Hu [Hres Hblob]]].
      destruct (upload_result_url env _ u Hres)
        as (container_name & an & ak & sas_token & _ & _ & ->).
      exists container_name, sas_token. now split.
Qed.

Lemma image_urls_are_in_page_order_witness :
  snd (convert_pdf
         (env_of (Returns (mkResponse 200 pdf_headers (Returns [x25]))) 3)
         [0; 1; 2; 0; 1; 2; 0; 1; 2]%nat doc_url w0)
  = Ok ["https://acct.blob.core.windows.net/pngs/page1.png?sig=page1.png";
        "https://acct.blob.core.windows.net/pngs/page2.png?sig=page2.png";
        "https://acct.blob.core.windows.net/pngs/page3.png?sig=page3.png"]%string.
Proof.
  pose (out := convert_pdf
                 (env_of (Returns (mkResponse 200 pdf_headers (Returns [x25]))) 3)
                 [2; 2; 2; 1; 0]%nat doc_url w0).
  assert (Hout : out = (fst out,
            Ok ["https://acct.blob.core.windows.net/pngs/page1.png?sig=page1.png";
                "https://acct.blob.core.windows.net/pngs/page2.png?sig=page2.png";
                "https://acct.blob.core.windows.net/pngs/page3.png?sig=page3.png"]%string)).
  { rewrite (surjective_pairing out) at 1. f_equal; vm_compute; reflexivity. }
  exact (proj1 (image_urls_are_in_page_order _ _ _ _ _ _ Hout) _).
Defined.

(** C9.  When the uploads yield no URL, the endpoint raises [EmptyResult]
    and answers status 500 with detail "No images were generated."; a
    document of zero pages is such a case; and the endpoint never returns
    an empty list of images. *)
Theorem no_images_is_answered_500 env sched url w w1 pdf_bytes w2
    image_bytes_list :
  download_pdf env url w = (w1, Ok pdf_bytes) ->
  convert_pdf_to_images env pdf_bytes w1 = (w2, Ok image_bytes_list) ->
  (snd (gather env sched (upload_tasks_of image_bytes_list) w2) = Ok [] ->
   snd (convert_pdf env sched url w) = Raise EmptyResult
   /\ post_convert_pdf env sched url w
      = mkReply 500 (Detail "No images were generated."))
  /\ (image_bytes_list = [] ->
      snd (gather env sched (upload_tasks_of image_bytes_list) w2) = Ok [])
  /\ snd (convert_pdf env sched url w) <> Ok []
  /\ response_body (post_convert_pdf env sched url w) <> Images [].
Proof.
  intros Hd Hc.
  assert (Hnever : snd (convert_pdf env sched url w) <> Ok []).
  { unfold convert_pdf, bind. rewrite Hd, Hc.
    destruct (gather env sched (upload_tasks_of image_bytes_list) w2)
      as [w3 [[|u urls]|e]]; discriminate. }
  split; [|split; [|split]].
  - intros Hg. unfold post_convert_pdf, convert_pdf, bind. rewrite Hd, Hc.
    destruct (gather env sched (upload_tasks_of image_bytes_list) w2)
      as [w3 r]. cbn [snd] in Hg. subst r. now split.
  - intros ->. cbn [upload_tasks_of imap]. now rewrite gather_nil.
  - exact Hnever.
  - unfold post_convert_pdf.
    destruct (snd (convert_pdf env sched url w)) as [[|u urls]|[]];
      cbn [respond response_body]; congruence.
Qed.

Lemma no_images_is_answered_500_witness :
  post_convert_pdf
    (env_of (Returns (mkResponse 200 pdf_headers (Returns [x25]))) 0)
    [] doc_url w0
  = mkReply 500 (Detail "No images were generated.").
Proof.
  destruct (no_images_is_answered_500
              (env_of (Returns (mkResponse 200 pdf_headers (Returns [x25]))) 0)
              [] doc_url w0
              (emit EvRead (emit (EvGet doc_url) w0)) [x25]
              (emit EvOpen (emit EvRead (emit (EvGet doc_url) w0))) []
              eq_refl eq_refl) as [Hempty [Hzero _]].
  apply Hempty, Hzero. reflexivity.
Defined.

End EndpointClaims.

(** * Further properties *)

(** ** [download_pdf]: what reaches the caller *)

Section DownloadOutcome.

Import Sample.

Context (env : Env) (url : string) (w : World).

(** What the two [except] clauses make of an exception of the body. *)
Lemma download_pdf_raises w' e :
  download_pdf_try env url w = (w', Raise e) ->
  download_pdf env url w
  = (w', Raise match e with
               | Library (ClientError _) => ClientErrorOccurred
               | _ => UnexpectedError
               end).
Proof.
  intros Htry. unfold download_pdf, try_except. rewrite Htry.
  now destruct e as [sc d|[m| |m]|m].
Qed.

(** The body of [download_pdf], case by case. *)
Lemma download_pdf_try_cases :
  (exists e, session_get env url = Throws e
             /\ download_pdf_try env url w
                = (emit (EvGet url) w, Raise (Library e)))
  \/ (exists r, session_get env url = Returns r
                /\ (status r <> 200 \/ indicates_pdf (content_type_of r) = false)
                /\ exists sc d, download_pdf_try env url w
                                = (emit (EvGet url) w,
                                   Raise (HTTPException sc d)))
  \/ (exists r, session_get env url = Returns r /\ status r = 200
                /\ indicates_pdf (content_type_of r) = true
                /\ download_pdf_try env url w
                   = (emit EvRead (emit (EvGet url) w),
                      match read r with
                      | Throws e => Raise (Library e)
                      | Returns pdf_bytes =>
                          if len pdf_bytes >? MAX_PDF_SIZE
                          then Raise PayloadTooLarge else Ok pdf_bytes
                      end)).
Proof.
  destruct (session_get env url) as [r|e] eqn:Hget.
  - destruct (Z.eq_dec (status r) 200) as [Hst|Hst].
    + destruct (indicates_pdf (content_type_of r)) eqn:Hct.
      * right. right. exists r.
        auto using download_pdf_try_read.
      * right. left. exists r. split; [reflexivity|]. split; [now right|].
        rewrite (download_pdf_try_content_type env url w r Hget Hst Hct).
        unfold UnsupportedContentType. eauto.
    + right. left. exists r. split; [reflexivity|]. split; [now left|].
      rewrite (download_pdf_try_status env url w r Hget Hst).
      unfold RemoteFetchError. eauto.
  - left. exists e. auto using download_pdf_try_throws.
Qed.



Lemma download_pdf_blobs : blobs (fst (download_pdf env url w)) = blobs w.
Proof.
  destruct download_pdf_try_cases
    as [(e' & Hget & Htry) | [(r & Hget & Hbad & sc & d & Htry)
                             | (r & Hget & Hst & Hct & Htry)]].
  - now rewrite (download_pdf_raises _ _ Htry).
  - now rewrite (download_pdf_raises _ _ Htry).
  - destruct (read r) as [b|e'].
    + destruct (len b >? MAX_PDF_SIZE).
      * now rewrite (download_pdf_raises _ _ Htry).
      * now rewrite (download_pdf_ok env url w _ _ Htry).
    + now rewrite (download_pdf_raises _ _ Htry).
Qed.

(** X1.  When [download_pdf] returns, it returns the body exactly as the
    server sent it: the response had status 200 and a content type with
    "pdf", the body read is what is returned, it is at most 100 MiB long,
    and the download made one GET and one read and nothing else. *)
Theorem download_returns_the_body_read w' pdf_bytes :
  download_pdf env url w = (w', Ok pdf_bytes) ->
  exists r,
    session_get env url = Returns r
    /\ status r = 200
    /\ indicates_pdf (content_type_of r) = true
    /\ read r = Returns pdf_bytes
    /\ len pdf_bytes <= 104857600
    /\ w' = emit EvRead (emit (EvGet url) w).
Proof.
  intros Hok.
  destruct download_pdf_try_cases
    as [(e & Hget & Htry) | [(r & Hget & Hbad & sc & d & Htry)
                            | (r & Hget & Hst & Hct & Htry)]].
  - rewrite (download_pdf_raises _ _ Htry) in Hok. discriminate.
  - rewrite (download_pdf_raises _ _ Htry) in Hok. discriminate.
  - exists r. destruct (read r) as [b|e] eqn:Hread.
    + destruct (len b >? MAX_PDF_SIZE) eqn:Hlen.
      * rewrite (download_pdf_raises _ _ Htry) in Hok. discriminate.
      * rewrite (download_pdf_ok env url w _ _ Htry) in Hok.
        injection Hok as <- <-.
        assert (len b <= MAX_PDF_SIZE)
          by (rewrite Z.gtb_ltb in Hlen; apply Z.ltb_ge in Hlen; lia).
        unfold MAX_PDF_SIZE in *. auto 10.
    + rewrite (download_pdf_raises _ _ Htry) in Hok. discriminate.
Qed.

End DownloadOutcome.

Lemma download_returns_the_body_read_witness :
  exists r,
    session_get (Sample.env_of
                   (Returns (mkResponse 200 Sample.pdf_headers (Returns [x25])))
                   1) Sample.doc_url = Returns r
    /\ status r = 200.
Proof.
  destruct (download_returns_the_body_read
              (Sample.env_of
                 (Returns (mkResponse 200 Sample.pdf_headers (Returns [x25]))) 1)
              Sample.doc_url Sample.w0
              (emit EvRead (emit (EvGet Sample.doc_url) Sample.w0)) [x25]
              eq_refl) as (r & Hget & Hst & _).
  exists r. now split.
Defined.

(** ** [convert_pdf_to_images]: when it succeeds and where it stops *)

Section RenderOutcome.

Context (env : Env).

Lemma render_pages_blobs doc page_nums :
  forall acc w, blobs (fst (render_pages doc page_nums acc w)) = blobs w.
Proof.
  induction page_nums as [|n page_nums IH]; intros acc w; [reflexivity|].
  cbn [render_pages]. unfold bind, call.
  destruct (get_png doc n) as [img|e]; cbn [result_of]; [|reflexivity].
  now rewrite IH.
Qed.

Lemma render_pages_ok_inv doc page_nums :
  forall acc w w' images,
    render_pages doc page_nums acc w = (w', Ok images) ->
    forall n, In n page_nums -> exists img, get_png doc n = Returns img.
Proof.
  induction page_nums as [|m page_nums IH]; intros acc w w' images Hrun n Hn;
    [destruct Hn|].
  cbn [render_pages] in Hrun. unfold bind, call in Hrun.
  destruct (get_png doc m) as [img|e] eqn:Hm; cbn [result_of] in Hrun;
    [|discriminate].
  destruct Hn as [<-|Hn]; [eauto|]. eapply IH; eassumption.
Qed.

(** The loop ends at the first page that does not rasterize. *)
Lemma render_pages_stops doc before k after e :
  forall acc w,
    (forall n, In n before -> exists img, get_png doc n = Returns img) ->
    get_png doc k = Throws e ->
    render_pages doc (before ++ k :: after) acc w
    = (mkWorld (events w ++ map EvRasterize (before ++ [k])) (blobs w),
       Raise (Library e)).
Proof.
  induction before as [|m before IH]; intros acc w Hall Hk.
  - cbn [app render_pages map]. unfold bind, call. now rewrite Hk.
  - destruct (Hall m (or_introl eq_refl)) as [img Hm].
    cbn [app render_pages map]. unfold bind, call. rewrite Hm.
    cbn [result_of]. rewrite IH; [|intros n Hn; apply Hall; now right|exact Hk].
    cbn [emit events blobs]. now rewrite <- app_assoc.
Qed.

Lemma convert_pdf_to_images_blobs pdf_bytes w :
  blobs (fst (convert_pdf_to_images env pdf_bytes w)) = blobs w.
Proof.
  unfold convert_pdf_to_images, try_except, convert_pdf_to_images_try, bind, call.
  destruct (fitz_open env pdf_bytes) as [doc|e]; cbn [result_of];
    [|reflexivity].
  destruct (MAX_PAGE_COUNT <? page_count doc)%nat; [reflexivity|].
  pose proof (render_pages_blobs doc
                (range (Nat.min (page_count doc) MAX_PAGE_COUNT)) []
                (emit EvOpen w)) as Hb.
  destruct (render_pages doc _ [] (emit EvOpen w)) as [w' [images|e]];
    exact Hb.
Qed.

(** Whatever goes wrong in the conversion, its caller sees the same 500. *)
Lemma convert_pdf_to_images_raises pdf_bytes w e :
  snd (convert_pdf_to_images env pdf_bytes w) = Raise e ->
  e = ConversionFailed.
Proof.
  unfold convert_pdf_to_images, try_except.
  destruct (convert_pdf_to_images_try env pdf_bytes w) as [w' [images|e']];
    [discriminate|].
  now intros [= <-].
Qed.

(** X2.  [convert_pdf_to_images] returns a list of images exactly when the
    document opens, has at most 3000 pages, and every one of its pages
    rasterizes; in every other case it raises the 500 "Error converting PDF
    to images.", and never part of the pages. *)
Theorem conversion_succeeds_iff_all_pages_render pdf_bytes w :
  ((exists images, snd (convert_pdf_to_images env pdf_bytes w) = Ok images)
   <-> exists doc,
         fitz_open env pdf_bytes = Returns doc
         /\ (page_count doc <= 3000)%nat
         /\ forall n, (n < page_count doc)%nat ->
                      exists img, get_png doc n = Returns img)
  /\ ((forall images, snd (convert_pdf_to_images env pdf_bytes w) <> Ok images)
      -> snd (convert_pdf_to_images env pdf_bytes w)
         = Raise (HTTPException 500 "Error converting PDF to images.")).
Proof.
  split.
  - split.
    + intros [images Hok].
      unfold convert_pdf_to_images, try_except, convert_pdf_to_images_try,
        bind, call in Hok.
      destruct (fitz_open env pdf_bytes) as [doc|e]; cbn [result_of] in Hok;
        [|discriminate].
      exists doc. split; [reflexivity|].
      destruct (Nat.ltb_spec MAX_PAGE_COUNT (page_count doc)) as [Hgt|Hle];
        [discriminate|].
      unfold MAX_PAGE_COUNT in Hle. split; [assumption|].
      replace (Nat.min (page_count doc) MAX_PAGE_COUNT) with (page_count doc)
        in Hok by (unfold MAX_PAGE_COUNT; lia).
      destruct (render_pages doc (range (page_count doc)) [] (emit EvOpen w))
        as [w' [images'|e]] eqn:Hrun; [|discriminate].
      intros n Hn. apply (render_pages_ok_inv _ _ _ _ _ _ Hrun).
      apply in_seq. lia.
    + intros (doc & Hopen & Hle & Hpages).
      destruct (render_pages_all doc (range (page_count doc)) [] (emit EvOpen w))
        as [images [Hrun _]].
      { intros n Hn. apply Hpages. apply in_seq in Hn. lia. }
      exists images.
      unfold convert_pdf_to_images, try_except, convert_pdf_to_images_try,
        bind, call.
      rewrite Hopen. cbn [result_of].
      destruct (Nat.ltb_spec MAX_PAGE_COUNT (page_count doc)) as [Hlt|_];
        [unfold MAX_PAGE_COUNT in Hlt; lia|].
      replace (Nat.min (page_count doc) MAX_PAGE_COUNT) with (page_count doc)
        by (unfold MAX_PAGE_COUNT; lia).
      now rewrite Hrun.
  - intros Hnot.
    destruct (snd (convert_pdf_to_images env pdf_bytes w)) as [images|e] eqn:Hr.
    + now destruct (Hnot images).
    + now rewrite (convert_pdf_to_images_raises _ _ _ Hr).
Qed.

(** X3.  The conversion stops at the first page that fails to rasterize:
    the pages before it and that page have been processed, in order,
    no later page has, and the result is the 500, not the images made so
    far. *)
Theorem conversion_stops_at_first_failing_page pdf_bytes w doc k e :
  fitz_open env pdf_bytes = Returns doc ->
  (page_count doc <= 3000)%nat ->
  (k < page_count doc)%nat ->
  (forall n, (n < k)%nat -> exists img, get_png doc n = Returns img) ->
  get_png doc k = Throws e ->
  convert_pdf_to_images env pdf_bytes w
  = (mkWorld (events w ++ EvOpen :: map EvRasterize (range (S k))) (blobs w),
     Raise (HTTPException 500 "Error converting PDF to images.")).
Proof.
  intros Hopen Hle Hk Hbefore Hfail.
  unfold convert_pdf_to_images, try_except, convert_pdf_to_images_try, bind, call.
  rewrite Hopen. cbn [result_of].
  destruct (Nat.ltb_spec MAX_PAGE_COUNT (page_count doc)) as [Hlt|_];
    [unfold MAX_PAGE_COUNT in Hlt; lia|].
  replace (Nat.min (page_count doc) MAX_PAGE_COUNT) with (page_count doc)
    by (unfold MAX_PAGE_COUNT; lia).
  assert (Hsplit : range (page_count doc)
                   = range k ++ k :: seq (S k) (page_count doc - S k)).
  { unfold range.
    replace (page_count doc) with (k + S (page_count doc - S k))%nat at 1 by lia.
    now rewrite seq_app. }
  rewrite Hsplit, (render_pages_stops doc (range k) k _ e); [| |exact Hfail].
  - unfold convert_pdf_to_images_except, raise. cbn [emit events blobs].
    f_equal. f_equal. rewrite <- app_assoc. cbn [app]. f_equal. f_equal.
    unfold range. rewrite seq_S. reflexivity.
  - intros n Hn. apply Hbefore. apply in_seq in Hn. lia.
Qed.

End RenderOutcome.

Lemma conversion_stops_at_first_failing_page_witness :
  events (fst (convert_pdf_to_images
                 (mkEnv (fun _ => Throws (ClientError "unused"))
                        (fun _ => Returns
                           (mkDocument 3 (fun n =>
                              if (n =? 1)%nat then Throws (LibraryError "broken page")
                              else Returns (Sample.png n))))
                        None EmptyString
                        (fun _ => Returns tt) (fun _ => Returns tt)
                        (fun _ => Returns tt) (fun _ _ => Returns tt)
                        (fun _ _ => EmptyString)
                        (fun _ _ _ _ => Throws (LibraryError "unused")))
                 [x25] Sample.w0))
  = [EvOpen; EvRasterize 0; EvRasterize 1].
Proof.
  rewrite (conversion_stops_at_first_failing_page _ [x25] Sample.w0
             (mkDocument 3 (fun n =>
                if (n =? 1)%nat then Throws (LibraryError "broken page")
                else Returns (Sample.png n)))
             1 (LibraryError "broken page")).
  - reflexivity.
  - reflexivity.
  - simpl. lia.
  - simpl. lia.
  - intros n Hn. assert (n = 0)%nat as -> by lia. now eexists.
  - reflexivity.
Defined.

(** ** [parse_connection_string] *)

Section ConnectionString.

Lemma occurs_append c a b : occurs c (a +:+ b) = occurs c a || occurs c b.
Proof.
  induction a as [|c' a IH]; [reflexivity|].
  rewrite append_cons. cbn [occurs]. now rewrite IH, orb_assoc.
Qed.

Lemma split_not_nil sep s : split sep s <> [].
Proof.
  destruct s as [|c s]; cbn [split]; [discriminate|].
  destruct (Ascii.eqb c sep); [discriminate|].
  destruct (split sep s); discriminate.
Qed.

Lemma join_cons_char sep c part parts :
  join sep (String c part :: parts) = String c (join sep (part :: parts)).
Proof. destruct parts; cbn [join]; [reflexivity | now rewrite append_cons]. Qed.

Lemma join_split sep s : join sep (split sep s) = s.
Proof.
  induction s as [|c s IH]; [reflexivity|]. cbn [split].
  destruct (Ascii.eqb_spec c sep) as [->|Hne].
  - pose proof (split_not_nil sep s) as Hnn.
    destruct (split sep s) as [|part parts] eqn:Hs; [contradiction|].
    cbn [join] in *. now rewrite append_nil, IH.
  - destruct (split sep s) as [|part parts] eqn:Hs.
    + now destruct (split_not_nil sep s).
    + now rewrite join_cons_char, IH.
Qed.

Lemma split_parts_clean sep s :
  Forall (fun part => occurs sep part = false) (split sep s).
Proof.
  induction s as [|c s IH]; cbn [split]; [now repeat constructor|].
  destruct (Ascii.eqb_spec c sep) as [->|Hne].
  - now constructor.
  - destruct (split sep s) as [|part parts]; [repeat constructor|].
    + cbn [occurs]. apply Ascii.eqb_neq in Hne. now rewrite Hne.
    + inversion IH as [|? ? Hpart Hparts]; subst. constructor; [|assumption].
      cbn [occurs]. apply Ascii.eqb_neq in Hne. now rewrite Hne.
Qed.

Lemma split_clean sep part : occurs sep part = false -> split sep part = [part].
Proof.
  induction part as [|c part IH]; [reflexivity|]. cbn [occurs split].
  intros Hocc. apply orb_false_iff in Hocc as [Hc Hrest].
  rewrite Hc. now rewrite IH.
Qed.

Lemma split_append sep part rest :
  occurs sep part = false ->
  split sep (part +:+ String sep rest) = part :: split sep rest.
Proof.
  induction part as [|c part IH]; intros Hocc.
  - rewrite append_nil. cbn [split]. now rewrite Ascii.eqb_refl.
  - cbn [occurs] in Hocc. apply orb_false_iff in Hocc as [Hc Hrest].
    rewrite append_cons. cbn [split]. rewrite Hc. now rewrite IH.
Qed.

Lemma split_join sep parts :
  parts <> [] ->
  Forall (fun part => occurs sep part = false) parts ->
  split sep (join sep parts) = parts.
Proof.
  intros Hnn Hclean. induction Hclean as [|part parts Hpart Hparts IH];
    [contradiction|].
  destruct parts as [|part' parts']; cbn [join].
  - now apply split_clean.
  - rewrite split_append by assumption. f_equal. now apply IH.
Qed.

Lemma split_trailing sep s :
  split sep (s +:+ String sep EmptyString) = split sep s ++ [EmptyString].
Proof.
  induction s as [|c s IH].
  - rewrite append_nil. cbn [split]. now rewrite Ascii.eqb_refl.
  - rewrite append_cons. cbn [split]. rewrite IH.
    destruct (Ascii.eqb c sep); [reflexivity|].
    pose proof (split_not_nil sep s) as Hnn.
    now destruct (split sep s).
Qed.

(** [split] cuts a string at its separators and nowhere else: putting the
    separator back between the parts gives the string again, no part
    contains the separator, and there is always at least one part (the
    empty string gives one empty part). *)
Lemma split_cuts_at_separators sep s :
  join sep (split sep s) = s
  /\ Forall (fun part => occurs sep part = false) (split sep s)
  /\ split sep s <> []
  /\ split sep EmptyString = [EmptyString].
Proof.
  auto using join_split, split_parts_clean, split_not_nil.
Qed.

Lemma split_once_spec sep part :
  match split_once sep part with
  | Some (key, value) =>
      part = key +:+ String sep value /\ occurs sep key = false
  | None => occurs sep part = false
  end.
Proof.
  induction part as [|c part IH]; cbn [split_once occurs]; [reflexivity|].
  destruct (Ascii.eqb_spec c sep) as [->|Hne].
  - now rewrite append_nil.
  - destruct (split_once sep part) as [[key value]|].
    + destruct IH as [-> Hkey]. rewrite append_cons. cbn [occurs].
      apply Ascii.eqb_neq in Hne. now rewrite Hne.
    + exact IH.
Qed.

Lemma split_once_append sep key value :
  occurs sep key = false ->
  split_once sep (key +:+ String sep value) = Some (key, value).
Proof.
  induction key as [|c key IH]; intros Hocc.
  - rewrite append_nil. cbn [split_once]. now rewrite Ascii.eqb_refl.
  - cbn [occurs] in Hocc. apply orb_false_iff in Hocc as [Hc Hrest].
    rewrite append_cons. cbn [split_once]. rewrite Hc. now rewrite IH.
Qed.

(** [part.split('=', 1)] cuts at the first separator only: for a key
    without the separator, the value is everything after it, further
    separators included (as in a base64 key that ends in "=="); and the
    unpacking fails exactly for a part without any separator. *)
Lemma split_once_cuts_at_first_separator sep key value :
  occurs sep key = false ->
  split_once sep (key +:+ String sep value) = Some (key, value)
  /\ forall part, split_once sep part = None <-> occurs sep part = false.
Proof.
  intros Hkey. split; [now apply split_once_append|].
  intros part. pose proof (split_once_spec sep part) as Hspec.
  destruct (split_once sep part) as [[k v]|].
  - destruct Hspec as [-> Hk]. split; [discriminate|].
    rewrite occurs_append. cbn [occurs]. rewrite Ascii.eqb_refl, orb_true_r.
    discriminate.
  - now split.
Qed.

Example split_once_keeps_padding :
  split_once "=" "AccountKey=a2V5a2V5==" = Some ("AccountKey", "a2V5a2V5==")%string.
Proof.
  apply (split_once_cuts_at_first_separator "=" "AccountKey" "a2V5a2V5==").
  reflexivity.
Defined.

End ConnectionString.

Section ConnectionStringParsing.

Import Sample.

Lemma parse_parts_formatted pairs :
  forall conn_dict w,
    Forall (fun kv => occurs "=" (fst kv) = false) pairs ->
    parse_parts (map key_value pairs) conn_dict w
    = (w, Ok (assign_all pairs conn_dict)).
Proof.
  induction pairs as [|[key value] pairs IH]; intros conn_dict w Hkeys;
    [reflexivity|].
  inversion Hkeys as [|? ? Hkey Hrest]; subst. cbn [fst] in Hkey.
  cbn [map parse_parts]. unfold key_value at 1. cbn [fst snd].
  rewrite split_once_append by assumption. now apply IH.
Qed.

Lemma assign_all_other pairs :
  forall conn_dict key,
    ~ In key (map fst pairs) ->
    assign_all pairs conn_dict !! key = conn_dict !! key.
Proof.
  induction pairs as [|[k v] pairs IH]; intros conn_dict key Hnot;
    [reflexivity|].
  cbn [assign_all fold_left fst snd]. cbn [map fst In] in Hnot.
  fold (assign_all pairs (<[k := v]> conn_dict)).
  rewrite IH by tauto. apply lookup_insert_ne. tauto.
Qed.

Lemma assign_all_lookup pairs :
  forall conn_dict key value,
    NoDup (map fst pairs) ->
    In (key, value) pairs ->
    assign_all pairs conn_dict !! key = Some value.
Proof.
  induction pairs as [|[k v] pairs IH]; intros conn_dict key value Hnd Hin;
    [destruct Hin|].
  cbn [map fst] in Hnd. apply NoDup_cons in Hnd as [Hk Hnd].
  cbn [assign_all fold_left fst snd].
  fold (assign_all pairs (<[k := v]> conn_dict)).
  destruct Hin as [[= -> ->] | Hin].
  - rewrite assign_all_other; [apply lookup_insert_eq|].
    now rewrite <- list_elem_of_In.
  - now apply IH.
Qed.

Lemma parse_parts_fails parts :
  forall conn_dict w,
    Exists (fun part => occurs "=" part = false) parts ->
    exists e, parse_parts parts conn_dict w = (w, Raise e).
Proof.
  induction parts as [|part parts IH]; intros conn_dict w Hex;
    [inversion Hex|].
  cbn [parse_parts]. pose proof (split_once_spec "=" part) as Hspec.
  destruct (split_once "=" part) as [[key value]|].
  - apply IH. inversion Hex as [? ? Hpart|]; subst; [|assumption].
    destruct Hspec as [-> _]. rewrite occurs_append in Hpart.
    cbn [occurs] in Hpart. rewrite Ascii.eqb_refl, orb_true_r in Hpart.
    discriminate.
  - now eexists.
Qed.

Lemma parse_parts_succeeds parts :
  forall conn_dict w,
    Forall (fun part => occurs "=" part = true) parts ->
    exists d, parse_parts parts conn_dict w = (w, Ok d).
Proof.
  induction parts as [|part parts IH]; intros conn_dict w Hall;
    [now eexists|].
  inversion Hall as [|? ? Hpart Hrest]; subst.
  cbn [parse_parts]. pose proof (split_once_spec "=" part) as Hspec.
  destruct (split_once "=" part) as [[key value]|]; [now apply IH|].
  congruence.
Qed.

(** X4.  Formatting and parsing a connection string is a round trip: for
    key-value pairs with distinct keys, keys without "=" or ";", and values
    without ";" (they may contain "="), [parse_connection_string] of the
    pairs written [key=value] and joined with ";" returns a dictionary that
    gives every key its value and has no other key. *)
Theorem parse_connection_string_round_trip pairs w :
  pairs <> [] ->
  NoDup (map fst pairs) ->
  Forall (fun kv => occurs "=" (fst kv) = false
                    /\ occurs ";" (fst kv) = false
                    /\ occurs ";" (snd kv) = false) pairs ->
  exists conn_dict,
    parse_connection_string (join ";" (map key_value pairs)) w
    = (w, Ok conn_dict)
    /\ (forall key value, In (key, value) pairs ->
                          conn_dict !! key = Some value)
    /\ (forall key, ~ In key (map fst pairs) -> conn_dict !! key = None).
Proof.
  intros Hnn Hnd Hclean. exists (assign_all pairs ∅).
  unfold parse_connection_string. rewrite split_join.
  - rewrite parse_parts_formatted.
    + split; [reflexivity|]. split.
      * intros key value Hin. now apply assign_all_lookup.
      * intros key Hnot. now rewrite assign_all_other.
    + eapply Forall_impl; [exact Hclean|]. now intros kv [Hk _].
  - destruct pairs; [contradiction | discriminate].
  - apply Forall_map. eapply Forall_impl; [exact Hclean|].
    intros [key value] (_ & Hk & Hv). unfold key_value. cbn [fst snd] in *.
    rewrite occurs_append. cbn [occurs]. now rewrite Hk, Hv.
Qed.

Lemma parse_connection_string_round_trip_witness :
  exists conn_dict,
    parse_connection_string "AccountName=acct;AccountKey=a2V5a2V5==" w0
    = (w0, Ok conn_dict)
    /\ conn_dict !! "AccountKey"%string = Some "a2V5a2V5=="%string.
Proof.
  destruct (parse_connection_string_round_trip
              [("AccountName", "acct"); ("AccountKey", "a2V5a2V5==")]%string w0)
    as (conn_dict & Hparse & Hlookup & _).
  - discriminate.
  - cbn [map fst]. apply NoDup_cons_2; [|apply NoDup_singleton].
    intros Hin. apply list_elem_of_singleton in Hin. discriminate.
  - repeat constructor.
  - exists conn_dict. split; [exact Hparse|].
    apply Hlookup. cbn [In]. auto.
Defined.

(** X5.  [parse_connection_string] returns a dictionary exactly when every
    part between the semicolons contains "="; otherwise the unpacking of
    [key, value] raises.  In particular every connection string that ends
    in ";" makes it raise. *)
Theorem parse_connection_string_needs_equals connection_string w :
  ((exists conn_dict,
      snd (parse_connection_string connection_string w) = Ok conn_dict)
   <-> Forall (fun part => occurs "=" part = true) (split ";" connection_string))
  /\ (exists e, snd (parse_connection_string
                       (connection_string +:+ ";") w) = Raise e).
Proof.
  unfold parse_connection_string. split; [split|].
  - intros [d Hd].
    apply Forall_forall. intros part Hin.
    destruct (occurs "=" part) eqn:Hocc; [reflexivity|]. exfalso.
    destruct (parse_parts_fails (split ";" connection_string) ∅ w) as [e He].
    { apply Exists_exists. eauto. }
    rewrite He in Hd. discriminate.
  - intros Hall.
    destruct (parse_parts_succeeds _ ∅ w Hall) as [d Hd].
    exists d. now rewrite Hd.
  - rewrite split_trailing.
    destruct (parse_parts_fails (split ";" connection_string ++ [EmptyString])
                ∅ w) as [e He].
    { apply Exists_app. right. now constructor. }
    exists e. now rewrite He.
Qed.

End ConnectionStringParsing.

(** ** [upload_image_to_azure_blob]: what it writes and when it succeeds *)

Section UploadOutcome.

Context (env : Env).

(** The signing step in terms of the parameters of the connection string. *)
Lemma sign_blob_url_eq filename container_name w :
  sign_blob_url env filename container_name w
  = (w, match snd (parse_connection_string
                     (AZURE_STORAGE_CONNECTION_STRING env) (mkWorld [] ∅)) with
        | Raise e => Raise e
        | Ok _ =>
            if falsy (conn_param env "AccountName")
               || falsy (conn_param env "AccountKey")
            then Raise (Exception
                          "Account name or key not found in connection string.")
            else
              match generate_blob_sas env
                      (default EmptyString (conn_param env "AccountName"))
                      container_name filename
                      (default EmptyString (conn_param env "AccountKey")) with
              | Returns sas_token =>
                  Ok (blob_client_url env container_name filename
                      +:+ "?" +:+ sas_token)
              | Throws e => Raise (Library e)
              end
        end).
Proof.
  unfold sign_blob_url, bind, conn_param, parse_connection_string.
  destruct (parse_parts_stateless
              (split ";" (AZURE_STORAGE_CONNECTION_STRING env)) ∅) as [r Hr].
  rewrite !Hr. cbn [snd]. destruct r as [d|e]; [|reflexivity].
  destruct (falsy (d !! "AccountName") || falsy (d !! "AccountKey"));
    [reflexivity|].
  unfold local_call, ret.
  now destruct (generate_blob_sas env _ container_name filename _).
Qed.

Lemma falsy_false v :
  falsy v = false <-> exists s, v = Some s /\ s <> EmptyString.
Proof.
  destruct v as [[|c v]|]; cbn [falsy]; split; try discriminate;
    try reflexivity.
  - intros (s & [= <-] & Hne). now destruct Hne.
  - intros _. now eexists.
  - intros (s & [=] & _).
Qed.

Lemma sign_blob_url_ok_iff filename container_name w u :
  snd (sign_blob_url env filename container_name w) = Ok u
  <-> exists account_name account_key sas_token,
        credentials env account_name account_key
        /\ generate_blob_sas env account_name container_name filename
                             account_key = Returns sas_token
        /\ u = blob_client_url env container_name filename
               +:+ "?" +:+ sas_token.
Proof.
  rewrite sign_blob_url_eq. cbn [snd]. unfold credentials. split.
  - destruct (snd (parse_connection_string _ _)) as [d|e]; [|discriminate].
    destruct (falsy (conn_param env "AccountName")) eqn:Han; [discriminate|].
    destruct (falsy (conn_param env "AccountKey")) eqn:Hak; [discriminate|].
    apply falsy_false in Han as (an & Han & Hann).
    apply falsy_false in Hak as (ak & Hak & Hakn).
    rewrite Han, Hak. cbn [orb].
    change (default EmptyString (Some an)) with an.
    change (default EmptyString (Some ak)) with ak.
    destruct (generate_blob_sas env an container_name filename ak)
      as [sas|e] eqn:Hsas; [|discriminate].
    intros [= <-]. exists an, ak, sas. auto 10.
  - intros (an & ak & sas & (Han & Hann & Hak & Hakn) & Hsas & ->).
    assert (Hparsed : exists d,
              snd (parse_connection_string
                     (AZURE_STORAGE_CONNECTION_STRING env) (mkWorld [] ∅))
              = Ok d).
    { unfold conn_param in Han.
      destruct (snd (parse_connection_string _ _)) as [d|e];
        [now eexists | discriminate]. }
    destruct Hparsed as [d ->]. rewrite Han, Hak.
    destruct an; [now destruct Hann|]. destruct ak; [now destruct Hakn|].
    cbn [falsy orb].
    change (default EmptyString (Some (String a an))) with (String a an).
    change (default EmptyString (Some (String a0 ak))) with (String a0 ak).
    now rewrite Hsas.
Qed.

(** The whole upload, call by call. *)
Lemma upload_image_eq image_bytes filename w :
  upload_image_to_azure_blob env image_bytes filename w
  = if falsy (AZURE_CONTAINER_NAME env) then (w, Raise UploadFailed)
    else
      let container_name := default EmptyString (AZURE_CONTAINER_NAME env) in
      match get_container_client env container_name with
      | Throws _ => (w, Raise UploadFailed)
      | Returns _ =>
          match get_blob_client env filename with
          | Throws _ => (emit EvCreateContainer w, Raise UploadFailed)
          | Returns _ =>
              match upload_blob env filename image_bytes with
              | Throws _ =>
                  (emit (EvUploadBlob filename) (emit EvCreateContainer w),
                   Raise UploadFailed)
              | Returns _ =>
                  (store filename image_bytes
                     (emit (EvUploadBlob filename) (emit EvCreateContainer w)),
                   match snd (sign_blob_url env filename container_name w) with
                   | Ok u => Ok u
                   | Raise _ => Raise UploadFailed
                   end)
              end
          end
      end.
Proof.
  unfold upload_image_to_azure_blob, try_except. unfold bind at 1.
  rewrite upload_begin_eq.
  destruct (falsy (AZURE_CONTAINER_NAME env)); [reflexivity|]. cbn zeta.
  destruct (get_container_client env _) as [[]|e]; [|reflexivity].
  unfold bind at 1. rewrite upload_create_eq.
  destruct (get_blob_client env filename) as [[]|e]; [|reflexivity].
  cbn [result_of]. unfold upload_finish, bind, blob_write.
  destruct (upload_blob env filename image_bytes) as [[]|e]; [|reflexivity].
  rewrite !sign_blob_url_eq. cbn [fst snd].
  now destruct (match snd (parse_connection_string _ _) with
                | Ok _ => _ | Raise e => _ end).
Qed.

(** X6.  An upload succeeds exactly when the container name is configured
    and its client obtained, the blob client is obtained, the blob is
    written, the connection string has a non-empty AccountName and
    AccountKey, and the token is minted; the URL it returns is then the URL
    of the blob, a question mark and the token. *)
Theorem upload_succeeds_iff image_bytes filename w u :
  snd (upload_image_to_azure_blob env image_bytes filename w) = Ok u
  <-> exists container_name account_name account_key sas_token,
        container_ready env container_name
        /\ get_blob_client env filename = Returns tt
        /\ upload_blob env filename image_bytes = Returns tt
        /\ credentials env account_name account_key
        /\ generate_blob_sas env account_name container_name filename
                             account_key = Returns sas_token
        /\ u = blob_client_url env container_name filename
               +:+ "?" +:+ sas_token.
Proof.
  rewrite upload_image_eq. unfold container_ready. split.
  - destruct (falsy (AZURE_CONTAINER_NAME env)) eqn:Hname; [discriminate|].
    apply falsy_false in Hname as (cn & Hname & Hcn). rewrite Hname.
    change (default EmptyString (Some cn)) with cn. cbn zeta.
    destruct (get_container_client env cn) as [[]|e] eqn:Hcc; [|discriminate].
    destruct (get_blob_client env filename) as [[]|e]; [|discriminate].
    destruct (upload_blob env filename image_bytes) as [[]|e]; [|discriminate].
    cbn [snd].
    destruct (snd (sign_blob_url env filename cn w)) as [u'|e] eqn:Hsign;
      [|discriminate].
    intros [= <-]. apply sign_blob_url_ok_iff in Hsign
      as (an & ak & sas & Hcred & Hsas & ->).
    exists cn, an, ak, sas. repeat split; try assumption; apply Hcred.
  - intros (cn & an & ak & sas & (Hname & Hcn & Hcc) & Hbc & Hup & Hcred
            & Hsas & ->).
    rewrite Hname. destruct cn as [|c cn]; [now destruct Hcn|].
    cbn [falsy].
    change (default EmptyString (Some (String c cn))) with (String c cn).
    cbn zeta. rewrite Hcc, Hbc, Hup. cbn [snd].
    assert (Hsign : snd (sign_blob_url env filename (String c cn) w)
                    = Ok (blob_client_url env (String c cn) filename
                          +:+ "?" +:+ sas)).
    { apply sign_blob_url_ok_iff. exists an, ak, sas. auto. }
    now rewrite Hsign.
Qed.

(** X7.  The blob is written before the URL is signed: when the write goes
    through and the signing then fails (no AccountKey in the connection
    string, say), the upload raises its 500 and the blob stays in the
    store. *)
Theorem failed_signing_leaves_the_blob image_bytes filename w container_name e :
  container_ready env container_name ->
  get_blob_client env filename = Returns tt ->
  upload_blob env filename image_bytes = Returns tt ->
  snd (sign_blob_url env filename container_name w) = Raise e ->
  snd (upload_image_to_azure_blob env image_bytes filename w)
  = Raise (HTTPException 500 "Error uploading images.")
  /\ blobs (fst (upload_image_to_azure_blob env image_bytes filename w))
       !! filename
     = Some image_bytes.
Proof.
  intros (Hname & Hcn & Hcc) Hbc Hup Hsign.
  rewrite upload_image_eq, Hname.
  destruct container_name as [|c cn]; [now destruct Hcn|]. cbn [falsy].
  change (default EmptyString (Some (String c cn))) with (String c cn).
  cbn zeta. rewrite Hcc, Hbc, Hup, Hsign. cbn [fst snd store blobs].
  split; [reflexivity | apply lookup_insert_eq].
Qed.

(** X8.  An upload writes no blob but its own: every other name of the
    store holds afterwards what it held before, whether the upload
    succeeds or fails. *)
Theorem upload_writes_only_its_blob image_bytes filename w name :
  name <> filename ->
  blobs (fst (upload_image_to_azure_blob env image_bytes filename w)) !! name
  = blobs w !! name.
Proof.
  intros Hne. rewrite upload_image_eq.
  destruct (falsy (AZURE_CONTAINER_NAME env)); [reflexivity|]. cbn zeta.
  destruct (get_container_client env _); [|reflexivity].
  destruct (get_blob_client env filename); [|reflexivity].
  destruct (upload_blob env filename image_bytes); [|reflexivity].
  cbn [fst store blobs emit]. now apply lookup_insert_ne.
Qed.

(** The coroutine as the event loop runs it is the function as it is
    written: three resumptions of a new upload coroutine leave the world
    and the result that the body of [upload_image_to_azure_blob], run from
    its first line to its last, leaves. *)
Lemma three_resumptions_run_the_upload image_bytes filename w :
  let step1 := resume env (NotStarted image_bytes filename) w in
  let step2 := resume env (snd step1) (fst step1) in
  let step3 := resume env (snd step2) (fst step2) in
  step3
  = (fst (upload_image_to_azure_blob env image_bytes filename w),
     Returned (snd (upload_image_to_azure_blob env image_bytes filename w))).
Proof.
  intros step1 step2 step3.
  assert (Hrest : upload_image_to_azure_blob env image_bytes filename w
                  = rest env (snd step3) (fst step3)).
  { change (upload_image_to_azure_blob env image_bytes filename w)
      with (rest env (NotStarted image_bytes filename) w).
    now rewrite rest_resume, (rest_resume env (snd step1)),
      (rest_resume env (snd step2)). }
  assert (Hstage : (stage (snd step3) = 3)%nat).
  { pose proof (resume_stage env (NotStarted image_bytes filename) w) as H1.
    pose proof (resume_stage env (snd step1) (fst step1)) as H2.
    pose proof (resume_stage env (snd step2) (fst step2)) as H3.
    assert (Hmono : forall c w0, (stage c <= stage (snd (resume env c w0)))%nat).
    { intros c w0. destruct c; try (apply Nat.lt_le_incl, resume_stage; cbn; lia).
      reflexivity. }
    pose proof (Hmono (snd step1) (fst step1)) as M2.
    pose proof (Hmono (snd step2) (fst step2)) as M3.
    fold step1 in H1. fold step2 in H2, M2. fold step3 in H3, M3.
    cbn [stage] in H1.
    assert (stage (snd step3) <= 3)%nat by (destruct (snd step3); cbn; lia).
    lia. }
  rewrite Hrest. destruct step3 as [w3 c3]. cbn [fst snd] in *.
  destruct c3; cbn [stage] in Hstage; try lia. reflexivity.
Qed.

End UploadOutcome.

Lemma failed_signing_leaves_the_blob_witness :
  blobs (fst (upload_image_to_azure_blob
                (mkEnv (fun _ => Throws (ClientError "unused"))
                       (fun _ => Throws (LibraryError "unused"))
                       (Some "pngs"%string) "AccountName=acct"
                       (fun _ => Returns tt) (fun _ => Returns tt)
                       (fun _ => Returns tt) (fun _ _ => Returns tt)
                       (fun _ filename => filename)
                       (fun _ _ _ _ => Returns "sig"%string))
                (Sample.png 0) "page1.png" Sample.w0))
    !! "page1.png"%string
  = Some (Sample.png 0).
Proof.
  eapply (failed_signing_leaves_the_blob _ (Sample.png 0) "page1.png" Sample.w0
            "pngs"
            (Exception "Account name or key not found in connection string.")).
  - repeat split. discriminate.
  - reflexivity.
  - reflexivity.
  - vm_compute. reflexivity.
Defined.

Lemma upload_writes_only_its_blob_witness :
  blobs (fst (upload_image_to_azure_blob env_flaky (Sample.png 1) "page2.png"
                (store "page1.png" (Sample.png 0) Sample.w0)))
    !! "page1.png"%string
  = Some (Sample.png 0).
Proof.
  rewrite (upload_writes_only_its_blob env_flaky (Sample.png 1) "page2.png"
             (store "page1.png" (Sample.png 0) Sample.w0) "page1.png").
  - reflexivity.
  - discriminate.
Defined.

(** ** The endpoint: what a caller can get *)

Section EndpointOutcome.

Context (env : Env).

Lemma upload_result_eq t w :
  upload_result env t
  = snd (upload_image_to_azure_blob env (fst t) (snd t) w).
Proof.
  unfold upload_result. symmetry.
  exact (eventual_rest env (NotStarted (fst t) (snd t)) w).
Qed.

(** What [gather] over the uploads of a request raises is the upload's
    500. *)
Lemma gather_failure sched image_bytes_list w e :
  snd (gather env sched (upload_tasks_of image_bytes_list) w) = Raise e ->
  e = UploadFailed.
Proof.
  intros Hg.
  pose proof (gather_spec env _ (upload_tasks_distinct image_bytes_list)
                sched w) as Hpost.
  unfold gather_post in Hpost. rewrite Hg in Hpost. now destruct Hpost.
Qed.

(** What [gather] returns has one URL for each upload. *)
Lemma gather_length sched image_bytes_list w image_urls :
  snd (gather env sched (upload_tasks_of image_bytes_list) w) = Ok image_urls ->
  length image_urls = length image_bytes_list.
Proof.
  intros Hg.
  pose proof (gather_spec env _ (upload_tasks_distinct image_bytes_list)
                sched w) as Hpost.
  unfold gather_post in Hpost. rewrite Hg in Hpost.
  apply Forall2_length in Hpost. unfold upload_tasks_of in Hpost.
  now rewrite length_imap in Hpost.
Qed.

(** The request, stage by stage. *)
Lemma convert_pdf_stages sched url w :
  (exists e, snd (download_pdf env url w) = Raise e
             /\ convert_pdf env sched url w
                = (fst (download_pdf env url w), Raise e))
  \/ exists w1 pdf_bytes,
       download_pdf env url w = (w1, Ok pdf_bytes)
       /\ ((exists w2, convert_pdf_to_images env pdf_bytes w1
                       = (w2, Raise ConversionFailed)
                       /\ convert_pdf env sched url w
                          = (w2, Raise ConversionFailed))
           \/ exists w2 image_bytes_list,
                convert_pdf_to_images env pdf_bytes w1
                = (w2, Ok image_bytes_list)
                /\ convert_pdf env sched url w
                   = (fst (gather env sched
                             (upload_tasks_of image_bytes_list) w2),
                      match snd (gather env sched
                                   (upload_tasks_of image_bytes_list) w2) with
                      | Raise _ => Raise UploadFailed
                      | Ok [] => Raise EmptyResult
                      | Ok image_urls => Ok image_urls
                      end)).
Proof.
  unfold convert_pdf, bind.
  destruct (download_pdf env url w) as [w1 [pdf_bytes|e]] eqn:Hd.
  - right. exists w1, pdf_bytes. split; [reflexivity|].
    destruct (convert_pdf_to_images env pdf_bytes w1)
      as [w2 [image_bytes_list|e]] eqn:Hc.
    + right. exists w2, image_bytes_list. split; [reflexivity|].
      destruct (gather env sched (upload_tasks_of image_bytes_list) w2)
        as [w3 [[|u urls]|e]] eqn:Hg; try reflexivity.
      cbn [fst snd].
      now rewrite (gather_failure sched image_bytes_list w2 e)
        by now rewrite Hg.
    + left. exists w2.
      rewrite (convert_pdf_to_images_raises env pdf_bytes w1 e)
        by now rewrite Hc.
      now split.
  - left. exists e. now split.
Qed.





(** X11.  A request that fails in the download or in the conversion has
    written nothing: the blob store is as it was before the request. *)
Theorem early_failure_writes_nothing sched url w e :
  snd (convert_pdf env sched url w) = Raise e ->
  e = ClientErrorOccurred \/ e = UnexpectedError \/ e = ConversionFailed ->
  blobs (fst (convert_pdf env sched url w)) = blobs w.
Proof.
  intros Hraise He.
  destruct (convert_pdf_stages sched url w)
    as [(e' & Hd & Heq) | (w1 & pdf & Hd & [(w2 & Hc & Heq)
                                           | (w2 & images & Hc & Heq)])];
    rewrite Heq in *; cbn [fst snd] in *.
  - apply download_pdf_blobs.
  - pose proof (convert_pdf_to_images_blobs env pdf w1) as Hb.
    rewrite Hc in Hb. pose proof (download_pdf_blobs env url w) as Hb'.
    rewrite Hd in Hb'. cbn [fst] in *. congruence.
  - exfalso.
    destruct (snd (gather env sched (upload_tasks_of images) w2))
      as [[|u urls]|e0]; try discriminate; injection Hraise as <-;
      destruct He as [He | [He | He]]; discriminate.
Qed.

(** X12.  If an upload of one page fails, the request fails with the 500
    "Error uploading images.", whatever the order in which the uploads
    complete and whatever the other uploads do: no list of the pages that
    did upload is returned. *)
Theorem one_failed_upload_fails_the_request sched url w w1 pdf_bytes w2
    image_bytes_list i image_bytes wu e :
  download_pdf env url w = (w1, Ok pdf_bytes) ->
  convert_pdf_to_images env pdf_bytes w1 = (w2, Ok image_bytes_list) ->
  image_bytes_list !! i = Some image_bytes ->
  snd (upload_image_to_azure_blob env image_bytes (page_filename i) wu)
  = Raise e ->
  post_convert_pdf env sched url w
  = mkReply 500 (Detail "Error uploading images.").
Proof.
  intros Hd Hc Hi Hup. unfold post_convert_pdf.
  destruct (convert_pdf_stages sched url w)
    as [(e' & Hd' & _) | (w1' & pdf & Hd' & [(w2' & Hc' & _)
                                            | (w2' & images & Hc' & ->)])].
  - rewrite Hd in Hd'. discriminate.
  - rewrite Hd in Hd'. injection Hd' as <- <-. rewrite Hc in Hc'. discriminate.
  - rewrite Hd in Hd'. injection Hd' as <- <-. rewrite Hc in Hc'.
    injection Hc' as <- <-. cbn [snd].
    pose proof (gather_spec env _ (upload_tasks_distinct image_bytes_list)
                  sched w2) as Hpost.
    unfold gather_post in Hpost.
    destruct (snd (gather env sched (upload_tasks_of image_bytes_list) w2))
      as [urls|e0]; [|reflexivity].
    exfalso.
    assert (Ht : upload_tasks_of image_bytes_list !! i
                 = Some (image_bytes, page_filename i)).
    { rewrite upload_tasks_of_lookup, Hi. reflexivity. }
    destruct (Forall2_lookup_l _ _ _ _ _ Hpost Ht) as [u [_ [Hu _]]].
    rewrite (upload_result_eq _ wu) in Hu. cbn [fst snd] in Hu. congruence.
Qed.

End EndpointOutcome.

Lemma early_failure_writes_nothing_witness :
  blobs (fst (convert_pdf
                (Sample.env_of
                   (Returns (mkResponse 404 Sample.pdf_headers (Returns [x25])))
                   3)
                [] Sample.doc_url
                (store "page1.png" (Sample.png 0) Sample.w0)))
  = blobs (store "page1.png" (Sample.png 0) Sample.w0).
Proof.
  apply (early_failure_writes_nothing _ _ _ _ UnexpectedError).
  - reflexivity.
  - right. left. reflexivity.
Defined.

Lemma one_failed_upload_fails_the_request_witness :
  post_convert_pdf env_page2_fails [2; 2; 2; 0; 0; 0]%nat Sample.doc_url
                   Sample.w0
  = mkReply 500 (Detail "Error uploading images.").
Proof.
  apply (one_failed_upload_fails_the_request env_page2_fails _ _ _
           (emit EvRead (emit (EvGet Sample.doc_url) Sample.w0)) [x25]
           (fst (convert_pdf_to_images env_page2_fails [x25]
                   (emit EvRead (emit (EvGet Sample.doc_url) Sample.w0))))
           [Sample.png 0; Sample.png 1; Sample.png 2]
           1%nat (Sample.png 1) Sample.w0 UploadFailed); reflexivity.
Defined.

(** ** The endpoint: a request that goes through, and the next one *)

Section EndpointSuccess.

Context (env : Env).

Lemma convert_pdf_to_images_returns pdf_bytes w doc :
  fitz_open env pdf_bytes = Returns doc ->
  (page_count doc <= 3000)%nat ->
  (forall n, (n < page_count doc)%nat -> exists img, get_png doc n = Returns img) ->
  exists w' images,
    convert_pdf_to_images env pdf_bytes w = (w', Ok images)
    /\ length images = page_count doc.
Proof.
  intros Hopen Hle Hpages.
  destruct (render_pages_all doc (range (page_count doc)) [] (emit EvOpen w))
    as [images [Hrun Hfa]].
  { intros n Hn. apply Hpages. apply in_seq in Hn. lia. }
  apply Forall2_length in Hfa. unfold range in Hfa. rewrite length_seq in Hfa.
  exists (mkWorld (events (emit EvOpen w)
                   ++ map EvRasterize (range (page_count doc)))
                  (blobs (emit EvOpen w))), images.
  split; [|now symmetry].
  unfold convert_pdf_to_images, try_except, convert_pdf_to_images_try, bind, call.
  rewrite Hopen. cbn [result_of].
  destruct (Nat.ltb_spec MAX_PAGE_COUNT (page_count doc)) as [Hlt|_];
    [unfold MAX_PAGE_COUNT in Hlt; lia|].
  replace (Nat.min (page_count doc) MAX_PAGE_COUNT) with (page_count doc)
    by (unfold MAX_PAGE_COUNT; lia).
  now rewrite Hrun.
Qed.

Lemma upload_ok_when_storage_works image_bytes filename w :
  storage_works env ->
  exists u, snd (upload_image_to_azure_blob env image_bytes filename w) = Ok u.
Proof.
  intros (cn & an & ak & (Hname & Hcn & Hcc) & Hcred & Hbc & Hup & Hsas).
  destruct (Hsas filename) as [sas Hs].
  exists (blob_client_url env cn filename +:+ "?" +:+ sas).
  rewrite upload_image_eq, Hname. destruct cn as [|c cn]; [now destruct Hcn|].
  cbn [falsy].
  change (default EmptyString (Some (String c cn))) with (String c cn).
  cbn zeta. rewrite Hcc, Hbc, Hup. cbn [snd].
  assert (Hsign : snd (sign_blob_url env filename (String c cn) w)
                  = Ok (blob_client_url env (String c cn) filename
                        +:+ "?" +:+ sas)).
  { apply sign_blob_url_ok_iff. exists an, ak, sas. auto. }
  now rewrite Hsign.
Qed.

(** X13.  A request goes through when everything around it does: if the
    server answers 200 with a PDF content type and a body of at most
    100 MiB, the document opens, has between 1 and 3000 pages that all
    rasterize, and the storage account takes every call, then the endpoint
    answers status 200 with exactly one URL for each page, whatever the
    order in which the uploads complete. *)
Theorem healthy_request_returns_every_page sched url w r pdf_bytes doc :
  session_get env url = Returns r ->
  status r = 200 ->
  indicates_pdf (content_type_of r) = true ->
  read r = Returns pdf_bytes ->
  len pdf_bytes <= 104857600 ->
  fitz_open env pdf_bytes = Returns doc ->
  (1 <= page_count doc <= 3000)%nat ->
  (forall n, (n < page_count doc)%nat -> exists img, get_png doc n = Returns img) ->
  storage_works env ->
  exists image_urls,
    post_convert_pdf env sched url w = mkReply 200 (Images image_urls)
    /\ length image_urls = page_count doc.
Proof.
  intros Hget Hst Hct Hread Hlen Hopen Hpc Hpages Hstorage.
  destruct (download_pdf_size_check env url w r pdf_bytes Hget Hst Hct Hread)
    as (_ & _ & Hdown & _).
  specialize (Hdown Hlen).
  destruct (convert_pdf_to_images_returns pdf_bytes
              (emit EvRead (emit (EvGet url) w)) doc Hopen
              ltac:(lia) Hpages) as (w2 & images & Hconv & Himages).
  unfold post_convert_pdf.
  destruct (convert_pdf_stages env sched url w)
    as [(e' & Hd' & _) | (w1' & pdf & Hd' & [(w2' & Hc' & _)
                                            | (w2' & images' & Hc' & ->)])].
  - rewrite Hdown in Hd'. discriminate.
  - rewrite Hdown in Hd'. injection Hd' as <- <-. rewrite Hconv in Hc'.
    discriminate.
  - rewrite Hdown in Hd'. injection Hd' as <- <-. rewrite Hconv in Hc'.
    injection Hc' as <- <-. cbn [snd].
    pose proof (gather_spec env _ (upload_tasks_distinct images) sched w2)
      as Hpost.
    pose proof (gather_length env sched images w2) as Hglen.
    unfold gather_post in Hpost.
    destruct (snd (gather env sched (upload_tasks_of images) w2))
      as [urls|e0].
    + specialize (Hglen urls eq_refl). exists urls.
      split; [|lia]. destruct urls; [cbn [length] in Hglen; lia | reflexivity].
    + exfalso. destruct Hpost as [_ (t & _ & Ht)].
      destruct (upload_ok_when_storage_works (fst t) (snd t) w Hstorage)
        as [u Hu].
      rewrite (upload_result_eq env t w) in Ht. congruence.
Qed.

(** What a request that went through has stored and returned for a page. *)
Lemma convert_pdf_stores sched url w w' image_urls w1 pdf_bytes w2
    image_bytes_list i image_bytes :
  convert_pdf env sched url w = (w', Ok image_urls) ->
  download_pdf env url w = (w1, Ok pdf_bytes) ->
  convert_pdf_to_images env pdf_bytes w1 = (w2, Ok image_bytes_list) ->
  image_bytes_list !! i = Some image_bytes ->
  blobs w' !! page_filename i = Some image_bytes
  /\ exists container_name sas_token,
       AZURE_CONTAINER_NAME env = Some container_name
       /\ image_urls !! i
          = Some (blob_client_url env container_name (page_filename i)
                  +:+ "?" +:+ sas_token).
Proof.
  intros Hok Hd Hc Hi.
  destruct (convert_pdf_ok env sched url w w' image_urls Hok)
    as (pdf' & w1' & images' & w2' & Hd' & Hc' & Hg & _).
  rewrite Hd in Hd'. injection Hd' as <- <-.
  rewrite Hc in Hc'. injection Hc' as <- <-.
  pose proof (gather_spec env _ (upload_tasks_distinct image_bytes_list)
                sched w2) as Hpost.
  rewrite Hg in Hpost. unfold gather_post in Hpost. cbn [fst snd] in Hpost.
  assert (Ht : upload_tasks_of image_bytes_list !! i
               = Some (image_bytes, page_filename i)).
  { rewrite upload_tasks_of_lookup, Hi. reflexivity. }
  destruct (Forall2_lookup_l _ _ _ _ _ Hpost Ht) as [u [Hu [Hres Hblob]]].
  split; [exact Hblob|].
  destruct (upload_result_url env _ u Hres)
    as (cn & an & ak & sas & Hname & _ & ->).
  exists cn, sas. now split.
Qed.

(** X14.  The names of the blobs do not depend on the request: a second
    request that goes through stores its page [i] under the same name
    [page<i+1>.png] under which the first request stored its own, and
    replaces it there; the URLs that the two requests returned for page [i]
    are URLs of that one blob. *)
Theorem next_request_replaces_the_pages sched1 sched2 url1 url2 w
    w1 urls1 wa pdf1 wb images1 w2 urls2 wc pdf2 wd images2 i image1 image2 :
  convert_pdf env sched1 url1 w = (w1, Ok urls1) ->
  download_pdf env url1 w = (wa, Ok pdf1) ->
  convert_pdf_to_images env pdf1 wa = (wb, Ok images1) ->
  images1 !! i = Some image1 ->
  convert_pdf env sched2 url2 w1 = (w2, Ok urls2) ->
  download_pdf env url2 w1 = (wc, Ok pdf2) ->
  convert_pdf_to_images env pdf2 wc = (wd, Ok images2) ->
  images2 !! i = Some image2 ->
  blobs w1 !! page_filename i = Some image1
  /\ blobs w2 !! page_filename i = Some image2
  /\ exists container_name sas1 sas2,
       urls1 !! i = Some (blob_client_url env container_name (page_filename i)
                          +:+ "?" +:+ sas1)
       /\ urls2 !! i = Some (blob_client_url env container_name (page_filename i)
                             +:+ "?" +:+ sas2).
Proof.
  intros Hok1 Hd1 Hc1 Hi1 Hok2 Hd2 Hc2 Hi2.
  destruct (convert_pdf_stores _ _ _ _ _ _ _ _ _ _ _ Hok1 Hd1 Hc1 Hi1)
    as [Hb1 (cn1 & sas1 & Hn1 & Hu1)].
  destruct (convert_pdf_stores _ _ _ _ _ _ _ _ _ _ _ Hok2 Hd2 Hc2 Hi2)
    as [Hb2 (cn2 & sas2 & Hn2 & Hu2)].
  rewrite Hn1 in Hn2. injection Hn2 as <-.
  split; [exact Hb1|]. split; [exact Hb2|].
  exists cn1, sas1, sas2. now split.
Qed.

End EndpointSuccess.

Lemma healthy_request_returns_every_page_witness :
  exists image_urls,
    post_convert_pdf
      (Sample.env_of
         (Returns (mkResponse 200 Sample.pdf_headers (Returns [x25]))) 3)
      [1; 0; 2]%nat Sample.doc_url Sample.w0
    = mkReply 200 (Images image_urls)
    /\ length image_urls = 3%nat.
Proof.
  apply (healthy_request_returns_every_page
           (Sample.env_of
              (Returns (mkResponse 200 Sample.pdf_headers (Returns [x25]))) 3)
           [1; 0; 2]%nat Sample.doc_url Sample.w0
           (mkResponse 200 Sample.pdf_headers (Returns [x25])) [x25]
           (mkDocument 3 (fun n => Returns (Sample.png n)))).
  - reflexivity.
  - reflexivity.
  - reflexivity.
  - reflexivity.
  - unfold len. simpl. lia.
  - reflexivity.
  - simpl. lia.
  - intros n _. now eexists.
  - exists "pngs"%string, "acct"%string, "a2V5"%string.
    split; [|split; [|split; [|split]]].
    + repeat split. discriminate.
    + repeat split; try discriminate; vm_compute; reflexivity.
    + reflexivity.
    + reflexivity.
    + intros filename. now eexists.
Defined.

Lemma next_request_replaces_the_pages_witness :
  blobs (fst (convert_pdf env_two_docs [] "https://example.com/a.pdf" Sample.w0))
    !! "page1.png"%string
  = Some [x01]
  /\ blobs (fst (convert_pdf env_two_docs [] "https://example.com/b.pdf"
                   (fst (convert_pdf env_two_docs []
                           "https://example.com/a.pdf" Sample.w0))))
       !! "page1.png"%string
     = Some [x02].
Proof.
  pose (out1 := convert_pdf env_two_docs [] "https://example.com/a.pdf"
                            Sample.w0).
  pose (out2 := convert_pdf env_two_docs [] "https://example.com/b.pdf"
                            (fst out1)).
  assert (H1 : out1 = (fst out1,
            Ok ["https://acct.blob.core.windows.net/pngs/page1.png?sig=page1.png"%string])).
  { rewrite (surjective_pairing out1) at 1. f_equal; vm_compute; reflexivity. }
  assert (H2 : out2 = (fst out2,
            Ok ["https://acct.blob.core.windows.net/pngs/page1.png?sig=page1.png"%string])).
  { rewrite (surjective_pairing out2) at 1. f_equal; vm_compute; reflexivity. }
  destruct (next_request_replaces_the_pages env_two_docs [] []
              "https://example.com/a.pdf" "https://example.com/b.pdf" Sample.w0
              (fst out1) _
              (emit EvRead (emit (EvGet "https://example.com/a.pdf") Sample.w0))
              [x01]
              (emit (EvRasterize 0) (emit EvOpen
                 (emit EvRead
                    (emit (EvGet "https://example.com/a.pdf") Sample.w0))))
              [[x01]]
              (fst out2) _
              (emit EvRead (emit (EvGet "https://example.com/b.pdf") (fst out1)))
              [x02]
              (emit (EvRasterize 0) (emit EvOpen
                 (emit EvRead
                    (emit (EvGet "https://example.com/b.pdf") (fst out1)))))
              [[x02]] 0%nat [x01] [x02] H1 eq_refl eq_refl eq_refl
              H2 eq_refl eq_refl eq_refl) as (Hb1 & Hb2 & _).
  split; [exact Hb1 | exact Hb2].
Defined.
